(** * Course-detail page: enrollment state reconciler and submission flows

    A shallow embedding of the logic of the [CourseDetail] component: the
    page-load reconciler [fetchCourseAndStatus], the two upload handlers
    [handleFormSubmit] and [handlePaymentProofSubmit], and the video handlers
    [handleVideoPlay], [handleVideoSelect] and [handleVideoToggleWatched].

    The component keeps its data in React state cells and talks to the
    outside through [fetchWithAuth], [navigate], [toast] and [console].  Here
    the state cells form one record [State]; a handler is a computation that
    threads that record, appends the effects it performs to a trace of
    [Event]s and may end by throwing.  What the backend answers is an input
    of each handler. *)

From Stdlib Require Import String List Bool ZArith Lia.
Import ListNotations.
Local Open Scope string_scope.
Local Open Scope Z_scope.
Local Open Scope list_scope.

(** ** Data model *)

Record VideoRef : Type := { vr_id : string; vr_title : string }.
Record QuizRef : Type := { qr_id : string; qr_title : string }.

Record Section_ : Type := {
  sec_id : string;
  sec_title : string;
  sec_videos : list VideoRef;
  sec_quizzes : list QuizRef
}.

(** [price] is a JS number which the page only displays. *)
Record CourseInfo : Type := {
  ci_id : string;
  ci_title : string;
  ci_description : string;
  ci_price : Z;
  ci_instructor_name : string;
  ci_image_url : string;
  ci_sections : list Section_
}.

Record Video : Type := {
  id : string;
  cloudinary_url : string;
  title : string;
  description : string;
  watched : bool
}.

(** Of an enrolled course the page reads the [id] only; the optional
    presentation fields are not modelled. *)
Record EnrolledCourse : Type := { ec_id : string; ec_title : string }.

Inductive ApplicationStatus : Type := NOT_APPLIED | PENDING | APPROVED | REJECTED.

Record ApplicationStatusResponse : Type := { asr_status : ApplicationStatus }.

Record BankAccount : Type := {
  bank_name : string;
  account_name : string;
  account_number : string
}.

Record PurchaseInfo : Type := {
  course_title : string;
  course_price : Z;
  bank_accounts : list BankAccount
}.

(** A browser [File]; only its presence matters to the handlers. *)
Record File : Type := { file_name : string }.

Record EnrollmentFormData : Type := {
  first_name : string;
  last_name : string;
  qualification : string;
  ultrasound_experience : string;
  contact_number : string;
  qualification_certificate : option File
}.

(** Body of the payment-proof status answer, [{ status: string }]. *)
Record PaymentStatusData : Type := { psd_status : string }.

(** Body of the payment-proof upload answer,
    [{ status: string; message?: string }].  The handler tests whether the
    status is there, so it is optional here as well.  It also tests whether
    the body itself is there ([data && ...]): the parsed body of an upload
    is an [option PaymentProofData], [None] for [null] or [undefined]. *)
Record PaymentProofData : Type := {
  ppd_status : option string;
  ppd_message : option string
}.

Definition ApplicationStatus_eqb (a b : ApplicationStatus) : bool :=
  match a, b with
  | NOT_APPLIED, NOT_APPLIED | PENDING, PENDING
  | APPROVED, APPROVED | REJECTED, REJECTED => true
  | _, _ => false
  end.

(** ** Component state: one field per [useState] cell *)

Record State : Type := mkState {
  course : option CourseInfo;
  applicationStatus : option ApplicationStatus;
  isLoading : bool;
  error : option string;
  showEnrollmentForm : bool;
  isSubmitting : bool;
  enrollmentForm : EnrollmentFormData;
  showPaymentForm : bool;
  paymentFile : option File;
  isSubmittingPayment : bool;
  purchaseInfo : option PurchaseInfo;
  isLoadingPurchaseInfo : bool;
  paymentSubmitted : bool;
  paymentPending : bool;
  videos : list Video;
  selectedVideo : option Video;
  isLoadingVideos : bool;
  isEnrolled : bool;
  completingVideoId : option string
}.

Definition upd_course (v : option CourseInfo) (s : State) : State :=
  mkState v (applicationStatus s) (isLoading s) (error s) (showEnrollmentForm s) (isSubmitting s) (enrollmentForm s) (showPaymentForm s) (paymentFile s) (isSubmittingPayment s) (purchaseInfo s) (isLoadingPurchaseInfo s) (paymentSubmitted s) (paymentPending s) (videos s) (selectedVideo s) (isLoadingVideos s) (isEnrolled s) (completingVideoId s).
Definition upd_applicationStatus (v : option ApplicationStatus) (s : State) : State :=
  mkState (course s) v (isLoading s) (error s) (showEnrollmentForm s) (isSubmitting s) (enrollmentForm s) (showPaymentForm s) (paymentFile s) (isSubmittingPayment s) (purchaseInfo s) (isLoadingPurchaseInfo s) (paymentSubmitted s) (paymentPending s) (videos s) (selectedVideo s) (isLoadingVideos s) (isEnrolled s) (completingVideoId s).
Definition upd_isLoading (v : bool) (s : State) : State :=
  mkState (course s) (applicationStatus s) v (error s) (showEnrollmentForm s) (isSubmitting s) (enrollmentForm s) (showPaymentForm s) (paymentFile s) (isSubmittingPayment s) (purchaseInfo s) (isLoadingPurchaseInfo s) (paymentSubmitted s) (paymentPending s) (videos s) (selectedVideo s) (isLoadingVideos s) (isEnrolled s) (completingVideoId s).
Definition upd_error (v : option string) (s : State) : State :=
  mkState (course s) (applicationStatus s) (isLoading s) v (showEnrollmentForm s) (isSubmitting s) (enrollmentForm s) (showPaymentForm s) (paymentFile s) (isSubmittingPayment s) (purchaseInfo s) (isLoadingPurchaseInfo s) (paymentSubmitted s) (paymentPending s) (videos s) (selectedVideo s) (isLoadingVideos s) (isEnrolled s) (completingVideoId s).
Definition upd_showEnrollmentForm (v : bool) (s : State) : State :=
  mkState (course s) (applicationStatus s) (isLoading s) (error s) v (isSubmitting s) (enrollmentForm s) (showPaymentForm s) (paymentFile s) (isSubmittingPayment s) (purchaseInfo s) (isLoadingPurchaseInfo s) (paymentSubmitted s) (paymentPending s) (videos s) (selectedVideo s) (isLoadingVideos s) (isEnrolled s) (completingVideoId s).
Definition upd_isSubmitting (v : bool) (s : State) : State :=
  mkState (course s) (applicationStatus s) (isLoading s) (error s) (showEnrollmentForm s) v (enrollmentForm s) (showPaymentForm s) (paymentFile s) (isSubmittingPayment s) (purchaseInfo s) (isLoadingPurchaseInfo s) (paymentSubmitted s) (paymentPending s) (videos s) (selectedVideo s) (isLoadingVideos s) (isEnrolled s) (completingVideoId s).
Definition upd_enrollmentForm (v : EnrollmentFormData) (s : State) : State :=
  mkState (course s) (applicationStatus s) (isLoading s) (error s) (showEnrollmentForm s) (isSubmitting s) v (showPaymentForm s) (paymentFile s) (isSubmittingPayment s) (purchaseInfo s) (isLoadingPurchaseInfo s) (paymentSubmitted s) (paymentPending s) (videos s) (selectedVideo s) (isLoadingVideos s) (isEnrolled s) (completingVideoId s).
Definition upd_showPaymentForm (v : bool) (s : State) : State :=
  mkState (course s) (applicationStatus s) (isLoading s) (error s) (showEnrollmentForm s) (isSubmitting s) (enrollmentForm s) v (paymentFile s) (isSubmittingPayment s) (purchaseInfo s) (isLoadingPurchaseInfo s) (paymentSubmitted s) (paymentPending s) (videos s) (selectedVideo s) (isLoadingVideos s) (isEnrolled s) (completingVideoId s).
Definition upd_paymentFile (v : option File) (s : State) : State :=
  mkState (course s) (applicationStatus s) (isLoading s) (error s) (showEnrollmentForm s) (isSubmitting s) (enrollmentForm s) (showPaymentForm s) v (isSubmittingPayment s) (purchaseInfo s) (isLoadingPurchaseInfo s) (paymentSubmitted s) (paymentPending s) (videos s) (selectedVideo s) (isLoadingVideos s) (isEnrolled s) (completingVideoId s).
Definition upd_isSubmittingPayment (v : bool) (s : State) : State :=
  mkState (course s) (applicationStatus s) (isLoading s) (error s) (showEnrollmentForm s) (isSubmitting s) (enrollmentForm s) (showPaymentForm s) (paymentFile s) v (purchaseInfo s) (isLoadingPurchaseInfo s) (paymentSubmitted s) (paymentPending s) (videos s) (selectedVideo s) (isLoadingVideos s) (isEnrolled s) (completingVideoId s).
Definition upd_purchaseInfo (v : option PurchaseInfo) (s : State) : State :=
  mkState (course s) (applicationStatus s) (isLoading s) (error s) (showEnrollmentForm s) (isSubmitting s) (enrollmentForm s) (showPaymentForm s) (paymentFile s) (isSubmittingPayment s) v (isLoadingPurchaseInfo s) (paymentSubmitted s) (paymentPending s) (videos s) (selectedVideo s) (isLoadingVideos s) (isEnrolled s) (completingVideoId s).
Definition upd_isLoadingPurchaseInfo (v : bool) (s : State) : State :=
  mkState (course s) (applicationStatus s) (isLoading s) (error s) (showEnrollmentForm s) (isSubmitting s) (enrollmentForm s) (showPaymentForm s) (paymentFile s) (isSubmittingPayment s) (purchaseInfo s) v (paymentSubmitted s) (paymentPending s) (videos s) (selectedVideo s) (isLoadingVideos s) (isEnrolled s) (completingVideoId s).
Definition upd_paymentSubmitted (v : bool) (s : State) : State :=
  mkState (course s) (applicationStatus s) (isLoading s) (error s) (showEnrollmentForm s) (isSubmitting s) (enrollmentForm s) (showPaymentForm s) (paymentFile s) (isSubmittingPayment s) (purchaseInfo s) (isLoadingPurchaseInfo s) v (paymentPending s) (videos s) (selectedVideo s) (isLoadingVideos s) (isEnrolled s) (completingVideoId s).
Definition upd_paymentPending (v : bool) (s : State) : State :=
  mkState (course s) (applicationStatus s) (isLoading s) (error s) (showEnrollmentForm s) (isSubmitting s) (enrollmentForm s) (showPaymentForm s) (paymentFile s) (isSubmittingPayment s) (purchaseInfo s) (isLoadingPurchaseInfo s) (paymentSubmitted s) v (videos s) (selectedVideo s) (isLoadingVideos s) (isEnrolled s) (completingVideoId s).
Definition upd_videos (v : list Video) (s : State) : State :=
  mkState (course s) (applicationStatus s) (isLoading s) (error s) (showEnrollmentForm s) (isSubmitting s) (enrollmentForm s) (showPaymentForm s) (paymentFile s) (isSubmittingPayment s) (purchaseInfo s) (isLoadingPurchaseInfo s) (paymentSubmitted s) (paymentPending s) v (selectedVideo s) (isLoadingVideos s) (isEnrolled s) (completingVideoId s).
Definition upd_selectedVideo (v : option Video) (s : State) : State :=
  mkState (course s) (applicationStatus s) (isLoading s) (error s) (showEnrollmentForm s) (isSubmitting s) (enrollmentForm s) (showPaymentForm s) (paymentFile s) (isSubmittingPayment s) (purchaseInfo s) (isLoadingPurchaseInfo s) (paymentSubmitted s) (paymentPending s) (videos s) v (isLoadingVideos s) (isEnrolled s) (completingVideoId s).
Definition upd_isLoadingVideos (v : bool) (s : State) : State :=
  mkState (course s) (applicationStatus s) (isLoading s) (error s) (showEnrollmentForm s) (isSubmitting s) (enrollmentForm s) (showPaymentForm s) (paymentFile s) (isSubmittingPayment s) (purchaseInfo s) (isLoadingPurchaseInfo s) (paymentSubmitted s) (paymentPending s) (videos s) (selectedVideo s) v (isEnrolled s) (completingVideoId s).
Definition upd_isEnrolled (v : bool) (s : State) : State :=
  mkState (course s) (applicationStatus s) (isLoading s) (error s) (showEnrollmentForm s) (isSubmitting s) (enrollmentForm s) (showPaymentForm s) (paymentFile s) (isSubmittingPayment s) (purchaseInfo s) (isLoadingPurchaseInfo s) (paymentSubmitted s) (paymentPending s) (videos s) (selectedVideo s) (isLoadingVideos s) v (completingVideoId s).
Definition upd_completingVideoId (v : option string) (s : State) : State :=
  mkState (course s) (applicationStatus s) (isLoading s) (error s) (showEnrollmentForm s) (isSubmitting s) (enrollmentForm s) (showPaymentForm s) (paymentFile s) (isSubmittingPayment s) (purchaseInfo s) (isLoadingPurchaseInfo s) (paymentSubmitted s) (paymentPending s) (videos s) (selectedVideo s) (isLoadingVideos s) (isEnrolled s) v.

(** The cells as [useState] initialises them. *)
Definition emptyForm : EnrollmentFormData :=
  {| first_name := EmptyString; last_name := EmptyString; qualification := EmptyString;
     ultrasound_experience := EmptyString; contact_number := EmptyString;
     qualification_certificate := None |}.

Definition initialState : State :=
  {| course := None; applicationStatus := None; isLoading := true;
     error := None; showEnrollmentForm := false; isSubmitting := false;
     enrollmentForm := emptyForm; showPaymentForm := false;
     paymentFile := None; isSubmittingPayment := false;
     purchaseInfo := None; isLoadingPurchaseInfo := false;
     paymentSubmitted := false; paymentPending := false;
     videos := []; selectedVideo := None; isLoadingVideos := false;
     isEnrolled := false; completingVideoId := None |}.

(** ** The outside world *)

(** What a [catch] clause can receive.  [ThrownError u m] is an instance of
    [Error] with message [m]; [u] tells whether it is an instance of
    [UnauthorizedError], the class exported by the API helper module (taken
    here to extend [Error], as its name says).  [ThrownValue] is any value
    that is not an [Error]. *)
Inductive Thrown : Type :=
| ThrownError (unauthorized : bool) (message : string)
| ThrownValue.

Definition instanceof_UnauthorizedError (e : Thrown) : bool :=
  match e with
  | ThrownError u _ => u
  | ThrownValue => false
  end.

Definition instanceof_Error (e : Thrown) : option string :=
  match e with
  | ThrownError _ m => Some m
  | ThrownValue => None
  end.

(** The result of awaiting a promise. *)
Inductive Outcome (A : Type) : Type :=
| Resolved (a : A)
| Rejected (e : Thrown).
Arguments Resolved {A} a.
Arguments Rejected {A} e.

(** An HTTP response as the page uses it: the status code, from which the
    Fetch API derives [ok], and what the helper [handleApiResponse] makes
    of the response (the parsed body, or an exception).  The helper is not
    part of the page, so its result travels with the response. *)
Record Response (A : Type) : Type := {
  resp_status : Z;
  resp_handled : Outcome A
}.
Arguments resp_status {A} r.
Arguments resp_handled {A} r.

Definition resp_ok {A} (r : Response A) : bool :=
  (200 <=? resp_status r) && (resp_status r <=? 299).

(** The requests the page sends through [fetchWithAuth]. *)
Inductive Endpoint : Type :=
| ExploreCourse (courseId : string)
| EnrollmentStatus (courseId : string)
| PaymentProofStatus (courseId : string)
| MyCourses
| VideosWithCheckpoint (courseId : string)
| PurchaseInfoOf (courseId : string)
| Apply (courseId : string) (form : EnrollmentFormData) (certificate : File)
| PaymentProof (courseId : string) (file : File)
| VideoComplete (videoId : string).

Inductive Method : Type := GET | POST.

Definition method (ep : Endpoint) : Method :=
  match ep with
  | Apply _ _ _ | PaymentProof _ _ | VideoComplete _ => POST
  | _ => GET
  end.

Definition url (ep : Endpoint) : string :=
  (match ep with
  | ExploreCourse c => "/api/courses/explore-courses/" ++ c
  | EnrollmentStatus c => "/api/courses/my-courses/" ++ c ++ "/enrollment-status"
  | PaymentProofStatus c => "/api/enrollments/" ++ c ++ "/payment-proof/status"
  | MyCourses => "/api/courses/my-courses"
  | VideosWithCheckpoint c => "/api/courses/my-courses/" ++ c ++ "/videos-with-checkpoint"
  | PurchaseInfoOf c => "/api/enrollments/courses/" ++ c ++ "/purchase-info"
  | Apply _ _ _ => "/api/enrollments/apply"
  | PaymentProof c _ => "/api/enrollments/" ++ c ++ "/payment-proof"
  | VideoComplete v => "/api/courses/videos/" ++ v ++ "/complete"
  end)%string.

Inductive ToastKind : Type := ToastError | ToastSuccess.
Inductive ConsoleKind : Type := ConsoleLog | ConsoleWarn | ConsoleError.

(** The effects a handler performs, in the order it performs them. *)
Inductive Event : Type :=
| EvPreventDefault
| EvRequest (ep : Endpoint)
| EvNavigate (path : string)
| EvToast (k : ToastKind) (msg : string)
| EvConsole (k : ConsoleKind) (msg : string).

Definition Trace : Type := list Event.

Fixpoint requests (t : Trace) : list Endpoint :=
  match t with
  | [] => []
  | EvRequest ep :: t' => ep :: requests t'
  | _ :: t' => requests t'
  end.

Fixpoint navigations (t : Trace) : list string :=
  match t with
  | [] => []
  | EvNavigate p :: t' => p :: navigations t'
  | _ :: t' => navigations t'
  end.

Fixpoint toasts (t : Trace) : list (ToastKind * string) :=
  match t with
  | [] => []
  | EvToast k m :: t' => (k, m) :: toasts t'
  | _ :: t' => toasts t'
  end.

Fixpoint console (k : ConsoleKind) (t : Trace) : list string :=
  match t with
  | [] => []
  | EvConsole k' m :: t' =>
      match k, k' with
      | ConsoleLog, ConsoleLog | ConsoleWarn, ConsoleWarn
      | ConsoleError, ConsoleError => m :: console k t'
      | _, _ => console k t'
      end
  | _ :: t' => console k t'
  end.

(** Which kind of request an endpoint is, whatever its arguments. *)
Inductive RequestKind : Type :=
| KCourse | KEnrollmentStatus | KPaymentProofStatus | KMembership
| KVideos | KPurchaseInfo | KApply | KPaymentProof | KVideoComplete.

Definition kind (ep : Endpoint) : RequestKind :=
  match ep with
  | ExploreCourse _ => KCourse
  | EnrollmentStatus _ => KEnrollmentStatus
  | PaymentProofStatus _ => KPaymentProofStatus
  | MyCourses => KMembership
  | VideosWithCheckpoint _ => KVideos
  | PurchaseInfoOf _ => KPurchaseInfo
  | Apply _ _ _ => KApply
  | PaymentProof _ _ => KPaymentProof
  | VideoComplete _ => KVideoComplete
  end.

Definition RequestKind_eqb (a b : RequestKind) : bool :=
  match a, b with
  | KCourse, KCourse | KEnrollmentStatus, KEnrollmentStatus
  | KPaymentProofStatus, KPaymentProofStatus | KMembership, KMembership
  | KVideos, KVideos | KPurchaseInfo, KPurchaseInfo | KApply, KApply
  | KPaymentProof, KPaymentProof | KVideoComplete, KVideoComplete => true
  | _, _ => false
  end.

(** [issued k t]: the trace [t] holds a request of kind [k]. *)
Definition issued (k : RequestKind) (t : Trace) : bool :=
  existsb (fun ep => RequestKind_eqb (kind ep) k) (requests t).

(** ** Handlers as computations

    A computation starts from the current cells and gives what it returns or
    throws, the cells it leaves, and its trace.  Cells written before an
    exception stay written, as with [setState] calls that ran before
    a [throw]. *)

Definition M (A : Type) : Type := State -> Outcome A * State * Trace.

Definition ret {A} (a : A) : M A := fun s => (Resolved a, s, []).

Definition bind {A B} (m : M A) (k : A -> M B) : M B :=
  fun s =>
    match m s with
    | (Resolved a, s1, t1) =>
        let '(r, s2, t2) := k a s1 in (r, s2, t1 ++ t2)
    | (Rejected e, s1, t1) => (Rejected e, s1, t1)
    end.

Declare Scope handler_scope.
Delimit Scope handler_scope with handler.
Notation "x <- m ;; k" := (bind m (fun x => k))
  (at level 100, m at next level, right associativity) : handler_scope.
Notation "m ;; k" := (bind m (fun _ => k))
  (at level 100, right associativity) : handler_scope.
Local Open Scope handler_scope.

(** [try { body } catch (e) { handler e }] *)
Definition try_catch {A} (body : M A) (handler : Thrown -> M A) : M A :=
  fun s =>
    match body s with
    | (Resolved a, s1, t1) => (Resolved a, s1, t1)
    | (Rejected e, s1, t1) =>
        let '(r, s2, t2) := handler e s1 in (r, s2, t1 ++ t2)
    end.

(** [try { body } finally { cleanup }]: the cleanup runs on both exits and
    the outcome of the body stands unless the cleanup throws. *)
Definition try_finally {A} (body : M A) (cleanup : M unit) : M A :=
  fun s =>
    let '(r, s1, t1) := body s in
    match cleanup s1 with
    | (Resolved _, s2, t2) => (r, s2, t1 ++ t2)
    | (Rejected e, s2, t2) => (Rejected e, s2, t1 ++ t2)
    end.

Definition emit (ev : Event) : M unit := fun s => (Resolved tt, s, [ev]).

Definition modify (f : State -> State) : M unit := fun s => (Resolved tt, f s, []).

(** [await p] for a promise that settles with [o]. *)
Definition await {A} (o : Outcome A) : M A := fun s => (o, s, []).

(** Calling [fetchWithAuth] sends the request; the promise it returns
    settles with the answer of the backend. *)
Definition send (ep : Endpoint) : M unit := emit (EvRequest ep).

Definition fetchWithAuth {A} (ep : Endpoint) (o : Outcome (Response A)) : M (Response A) :=
  send ep ;; await o.

Definition handleApiResponse {A} (r : Response A) : M A := await (resp_handled r).

Definition navigate (path : string) : M unit := emit (EvNavigate path).
Definition toast_error (msg : string) : M unit := emit (EvToast ToastError msg).
Definition toast_success (msg : string) : M unit := emit (EvToast ToastSuccess msg).
Definition console_log (msg : string) : M unit := emit (EvConsole ConsoleLog msg).
Definition console_warn (msg : string) : M unit := emit (EvConsole ConsoleWarn msg).
Definition console_error (msg : string) : M unit := emit (EvConsole ConsoleError msg).
Definition preventDefault : M unit := emit EvPreventDefault.

Definition setCourse v := modify (upd_course v).
Definition setApplicationStatus v := modify (upd_applicationStatus v).
Definition setIsLoading v := modify (upd_isLoading v).
Definition setError v := modify (upd_error v).
Definition setShowEnrollmentForm v := modify (upd_showEnrollmentForm v).
Definition setIsSubmitting v := modify (upd_isSubmitting v).
Definition setEnrollmentForm v := modify (upd_enrollmentForm v).
Definition setShowPaymentForm v := modify (upd_showPaymentForm v).
Definition setPaymentFile v := modify (upd_paymentFile v).
Definition setIsSubmittingPayment v := modify (upd_isSubmittingPayment v).
Definition setPaymentSubmitted v := modify (upd_paymentSubmitted v).
Definition setPaymentPending v := modify (upd_paymentPending v).
Definition setIsEnrolled v := modify (upd_isEnrolled v).
Definition setCompletingVideoId v := modify (upd_completingVideoId v).

(** The functional forms [setVideos(prev => ...)] and
    [setSelectedVideo(prev => ...)]. *)
Definition setVideos_with (f : list Video -> list Video) : M unit :=
  modify (fun s => upd_videos (f (videos s)) s).
Definition setSelectedVideo_with (f : option Video -> option Video) : M unit :=
  modify (fun s => upd_selectedVideo (f (selectedVideo s)) s).
Definition setSelectedVideo v := modify (upd_selectedVideo v).

(** The cells and the trace a computation leaves. *)
Definition result_of {A} (r : Outcome A * State * Trace) : Outcome A := fst (fst r).
Definition state_of {A} (r : Outcome A * State * Trace) : State := snd (fst r).
Definition trace_of {A} (r : Outcome A * State * Trace) : Trace := snd r.

(** JS truthiness of [courseId : string | undefined]: the route parameter
    counts as present when it is a non-empty string. *)
Definition truthy (o : option string) : option string :=
  match o with
  | Some EmptyString => None
  | Some c => Some c
  | None => None
  end.

Definition is_empty (s : string) : bool :=
  match s with
  | EmptyString => true
  | String _ _ => false
  end.

(** ** The reconciler: [fetchCourseAndStatus] *)

(** What the backend answers to the four requests of the page load. *)
Record Backend : Type := {
  course_answer : Outcome (Response CourseInfo);
  status_answer : Outcome (Response ApplicationStatusResponse);
  payment_answer : Outcome (Response PaymentStatusData);
  membership_answer : Outcome (Response (list EnrolledCourse))
}.

(** The payment-proof check made for an approved application. *)
Definition checkPaymentProof (cid : string) (b : Backend) : M unit :=
  try_catch
    (paymentStatusRes <- fetchWithAuth (PaymentProofStatus cid) (payment_answer b) ;;
     if resp_ok paymentStatusRes then
       (paymentStatusData <- handleApiResponse paymentStatusRes ;;
        if (psd_status paymentStatusData =? "pending")%string then
          (setPaymentSubmitted true ;; setPaymentPending true)
        else ret tt)
     else if resp_status paymentStatusRes =? 404 then
       (console_log "Payment proof not yet submitted." ;;
        setPaymentSubmitted false ;;
        setPaymentPending false)
     else ret tt)
    (fun _ =>
       console_error "Could not check payment proof status, assuming it's not submitted." ;;
       setPaymentSubmitted false ;;
       setPaymentPending false).

(** The membership check, made whatever the application status is. *)
Definition checkEnrolled (cid : string) (statusResponse : ApplicationStatusResponse)
    (b : Backend) : M unit :=
  try_catch
    (enrolledResponse <- fetchWithAuth MyCourses (membership_answer b) ;;
     enrolledCourses <- handleApiResponse enrolledResponse ;;
     let enrolledCourse := find (fun c => (ec_id c =? cid)%string) enrolledCourses in
     let isUserEnrolled := match enrolledCourse with Some _ => true | None => false end in
     setIsEnrolled isUserEnrolled ;;
     if isUserEnrolled && negb (ApplicationStatus_eqb (asr_status statusResponse) APPROVED) then
       (console_log "User is enrolled but status was not APPROVED, updating status" ;;
        setApplicationStatus (Some APPROVED))
     else ret tt)
    (fun _ => console_error "Failed to check enrollment status:").

(** The enrollment-status fetch with its fallback. *)
Definition fetchStatus (cid : string) (b : Backend) : M ApplicationStatusResponse :=
  try_catch
    (statusRes <- fetchWithAuth (EnrollmentStatus cid) (status_answer b) ;;
     handleApiResponse statusRes)
    (fun _ =>
       console_log "Enrollment status endpoint failed, will check enrollment directly" ;;
       ret {| asr_status := NOT_APPLIED |}).

Definition fetchCourseAndStatus (courseId : option string) (b : Backend) : M unit :=
  match truthy courseId with
  | None =>
      setError (Some "Course ID is missing.") ;;
      setIsLoading false
  | Some cid =>
      setIsLoading true ;;
      try_finally
        (try_catch
           (send (ExploreCourse cid) ;;
            statusResponse <- fetchStatus cid b ;;
            courseRes <- await (course_answer b) ;;
            courseResponse <- handleApiResponse courseRes ;;
            setCourse (Some courseResponse) ;;
            setApplicationStatus (Some (asr_status statusResponse)) ;;
            (if ApplicationStatus_eqb (asr_status statusResponse) APPROVED
             then checkPaymentProof cid b
             else ret tt) ;;
            checkEnrolled cid statusResponse b)
           (fun err =>
              if instanceof_UnauthorizedError err then navigate "/login"
              else setError (Some "Failed to load course details. Please try again later.")))
        (setIsLoading false)
  end.

(** ** The submission flow *)

Definition handleEnroll : M unit := setShowEnrollmentForm true.

(** [form] is the [enrollmentForm] cell as the handler's closure sees it. *)
Definition handleFormSubmit (courseId : option string) (form : EnrollmentFormData)
    (answer : Outcome (Response unit)) : M unit :=
  preventDefault ;;
  match truthy courseId with
  | None => ret tt
  | Some cid =>
      if is_empty (first_name form) || is_empty (last_name form)
         || is_empty (qualification form) || is_empty (ultrasound_experience form)
         || is_empty (contact_number form)
      then toast_error "Please fill in all required fields."
      else
        match qualification_certificate form with
        | None => toast_error "Please upload your qualification certificate."
        | Some certificate =>
            setIsSubmitting true ;;
            try_finally
              (try_catch
                 (response <- fetchWithAuth (Apply cid form certificate) answer ;;
                  handleApiResponse response ;;
                  toast_success "Enrollment application submitted successfully!" ;;
                  setApplicationStatus (Some PENDING) ;;
                  setShowEnrollmentForm false)
                 (fun error =>
                    console_error "Enrollment error:" ;;
                    match instanceof_Error error with
                    | Some message =>
                        toast_error ("Failed to submit enrollment application: " ++ message)%string
                    | None => toast_error "Failed to submit enrollment application."
                    end))
              (setIsSubmitting false)
        end
  end.

(** [data.message || fallback] *)
Definition message_or (m : option string) (fallback : string) : string :=
  match m with
  | Some (String _ _ as msg) => msg
  | _ => fallback
  end.

Definition is_pending (st : option string) : bool :=
  match st with
  | Some v => (v =? "pending")%string
  | None => false
  end.

(** [throw e] *)
Definition throw {A} (e : Thrown) : M A := fun s => (Rejected e, s, []).

(** What reading a property of [null] or [undefined] throws: a [TypeError],
    which is an [Error] and no [UnauthorizedError]. *)
Definition TypeError (message : string) : Thrown := ThrownError false message.

(** [data.message]: the read that comes first in the handler, before the
    test [data && ...].  On a body that is not there it throws. *)
Definition read_body (parsed : option PaymentProofData) : M PaymentProofData :=
  match parsed with
  | Some data => ret data
  | None => throw (TypeError "Cannot read properties of null (reading 'message')")
  end.

(** [file] is the [paymentFile] cell as the handler's closure sees it. *)
Definition handlePaymentProofSubmit (courseId : option string) (file : option File)
    (answer : Outcome (Response (option PaymentProofData))) : M unit :=
  preventDefault ;;
  match truthy courseId, file with
  | Some cid, Some staged =>
      setIsSubmittingPayment true ;;
      try_finally
        (try_catch
           (response <- fetchWithAuth (PaymentProof cid staged) answer ;;
            parsed <- handleApiResponse response ;;
            data <- read_body parsed ;;
            toast_success (message_or (ppd_message data) "Payment proof submitted successfully!") ;;
            (if is_pending (ppd_status data) then
               (setPaymentSubmitted true ;; setPaymentPending true)
             else
               (console_warn "Payment status not returned as pending in POST response. Optimistically updating UI." ;;
                setPaymentSubmitted true ;;
                setPaymentPending true)) ;;
            setShowPaymentForm false ;;
            setPaymentFile None)
           (fun _ => toast_error "Failed to submit payment proof."))
        (setIsSubmittingPayment false)
  | _, _ => ret tt
  end.

(** ** The video handlers *)

Definition with_watched (w : bool) (v : Video) : Video :=
  {| id := id v; cloudinary_url := cloudinary_url v; title := title v;
     description := description v; watched := w |}.

(** [prevVideos.map(v => v.id === video.id ? { ...v, watched } : v)] *)
Definition mark_in_list (video : Video) (w : bool) (prevVideos : list Video) : list Video :=
  map (fun v => if (id v =? id video)%string then with_watched w v else v) prevVideos.

(** [prev?.id === video.id ? { ...prev, watched } : prev] *)
Definition mark_selected (video : Video) (w : bool) (prev : option Video) : option Video :=
  match prev with
  | Some p => if (id p =? id video)%string then Some (with_watched w p) else prev
  | None => prev
  end.

Definition handleVideoSelect (video : Video) : M unit := setSelectedVideo (Some video).

Definition handleVideoPlay (video : Video) (answer : Outcome (Response unit)) : M unit :=
  if negb (watched video) then
    setCompletingVideoId (Some (id video)) ;;
    try_finally
      (try_catch
         (fetchWithAuth (VideoComplete (id video)) answer ;;
          setVideos_with (mark_in_list video true) ;;
          setSelectedVideo_with (mark_selected video true) ;;
          toast_success "Video marked as completed!")
         (fun _ =>
            console_error "Failed to mark video as completed:" ;;
            toast_error "Failed to mark video as completed."))
      (setCompletingVideoId None)
  else ret tt.

(** The handler awaits [fetchWithAuth] only: the response is not inspected,
    so the toggle succeeds when the promise resolves and fails when it
    rejects. *)
Definition handleVideoToggleWatched (video : Video) (answer : Outcome (Response unit)) : M unit :=
  setCompletingVideoId (Some (id video)) ;;
  try_finally
    (try_catch
       (fetchWithAuth (VideoComplete (id video)) answer ;;
        let newWatchedState := negb (watched video) in
        setVideos_with (mark_in_list video newWatchedState) ;;
        setSelectedVideo_with (mark_selected video newWatchedState) ;;
        toast_success (if newWatchedState then "Video marked as completed!"
                       else "Video marked as unwatched!"))
       (fun _ =>
          console_error "Failed to toggle video status:" ;;
          toast_error "Failed to update video status."))
    (setCompletingVideoId None).

(** ** Reading the answers of the backend *)

(** The result of [handleApiResponse(await fetchWithAuth(...))]: the request
    succeeds when the promise resolves and the helper accepts the response,
    and fails with what either of them throws. *)
Definition settled {A} (o : Outcome (Response A)) : Outcome A :=
  match o with
  | Resolved r => resp_handled r
  | Rejected e => Rejected e
  end.

(** The application status the reconciler works with after the
    enrollment-status fetch: the fetched one, or [NOT_APPLIED] when the
    fetch failed. *)
Definition resolvedStatus (b : Backend) : ApplicationStatus :=
  match settled (status_answer b) with
  | Resolved r => asr_status r
  | Rejected _ => NOT_APPLIED
  end.

(** Whether the membership list holds the course. *)
Definition lists_course (cid : string) (l : list EnrolledCourse) : bool :=
  existsb (fun c => (ec_id c =? cid)%string) l.

(** One of the five textual fields of the form is empty. *)
Definition text_field_empty (form : EnrollmentFormData) : bool :=
  is_empty (first_name form) || is_empty (last_name form)
  || is_empty (qualification form) || is_empty (ultrasound_experience form)
  || is_empty (contact_number form).

(** A 200 answer with body [a]. *)
Definition ok_response {A} (a : A) : Outcome (Response A) :=
  Resolved {| resp_status := 200; resp_handled := Resolved a |}.

Definition with_status_answer (o : Outcome (Response ApplicationStatusResponse))
    (b : Backend) : Backend :=
  {| course_answer := course_answer b; status_answer := o;
     payment_answer := payment_answer b; membership_answer := membership_answer b |}.

(** *** The cells after each step of the reconciler

    These summaries are not part of the page; the lemmas of the next part
    show that the reconciler computes them. *)

(** The payment-proof cells [(paymentSubmitted, paymentPending)] after the
    payment-proof check, from the cells before it. *)
Definition paymentProofFlags (b : Backend) (before : bool * bool) : bool * bool :=
  match payment_answer b with
  | Resolved r =>
      if resp_ok r then
        match resp_handled r with
        | Resolved d => if (psd_status d =? "pending")%string then (true, true) else before
        | Rejected _ => (false, false)
        end
      else if resp_status r =? 404 then (false, false)
      else before
  | Rejected _ => (false, false)
  end.

Definition with_paymentFlags (f : bool * bool) (s : State) : State :=
  upd_paymentPending (snd f) (upd_paymentSubmitted (fst f) s).

(** The cells after the membership check. *)
Definition enrolled_state (cid : string) (st : ApplicationStatus) (b : Backend)
    (s : State) : State :=
  match settled (membership_answer b) with
  | Resolved l =>
      if lists_course cid l && negb (ApplicationStatus_eqb st APPROVED)
      then upd_applicationStatus (Some APPROVED) (upd_isEnrolled (lists_course cid l) s)
      else upd_isEnrolled (lists_course cid l) s
  | Rejected _ => s
  end.

(** The cells after a failed course fetch. *)
Definition course_failure_state (s : State) (e : Thrown) : State :=
  upd_isLoading false
    (if instanceof_UnauthorizedError e then upd_isLoading true s
     else upd_error (Some "Failed to load course details. Please try again later.")
            (upd_isLoading true s)).

(** The cells after a successful course fetch, step by step. *)
Definition published (b : Backend) (s : State) (cid : string) (ci : CourseInfo) : State :=
  let st := resolvedStatus b in
  let s1 := upd_applicationStatus (Some st) (upd_course (Some ci) (upd_isLoading true s)) in
  let s2 :=
    if ApplicationStatus_eqb st APPROVED
    then with_paymentFlags (paymentProofFlags b (paymentSubmitted s1, paymentPending s1)) s1
    else s1 in
  upd_isLoading false (enrolled_state cid st b s2).

(** ** Sample data *)

Definition sampleCourse : CourseInfo :=
  {| ci_id := "c1"; ci_title := "Obstetric ultrasound"; ci_description := "Basics";
     ci_price := 120; ci_instructor_name := "Dr. A"; ci_image_url := EmptyString;
     ci_sections := [] |}.

Definition enrolledC1 : EnrolledCourse := {| ec_id := "c1"; ec_title := "Obstetric ultrasound" |}.
Definition enrolledC2 : EnrolledCourse := {| ec_id := "c2"; ec_title := "Cardiac ultrasound" |}.

Definition unauthorized : Thrown := ThrownError true "Unauthorized".
Definition serverError : Thrown := ThrownError false "Internal Server Error".

Definition notFound : Response PaymentStatusData :=
  {| resp_status := 404; resp_handled := Rejected (ThrownError false "Not Found") |}.

(** Status [PENDING], yet the membership list holds the course. *)
Definition pendingButEnrolled : Backend :=
  {| course_answer := ok_response sampleCourse;
     status_answer := ok_response {| asr_status := PENDING |};
     payment_answer := Resolved notFound;
     membership_answer := ok_response [enrolledC2; enrolledC1] |}.

(** Status [APPROVED], no payment proof yet, not enrolled. *)
Definition approvedNoProof : Backend :=
  {| course_answer := ok_response sampleCourse;
     status_answer := ok_response {| asr_status := APPROVED |};
     payment_answer := Resolved notFound;
     membership_answer := ok_response [] |}.

(** The course fetch is refused, or breaks. *)
Definition courseUnauthorized : Backend :=
  {| course_answer := Rejected unauthorized;
     status_answer := ok_response {| asr_status := PENDING |};
     payment_answer := Resolved notFound;
     membership_answer := ok_response [] |}.

Definition courseBroken : Backend :=
  {| course_answer := Resolved {| resp_status := 500; resp_handled := Rejected serverError |};
     status_answer := ok_response {| asr_status := PENDING |};
     payment_answer := Resolved notFound;
     membership_answer := ok_response [] |}.

(** The enrollment-status fetch is refused, or breaks. *)
Definition statusUnauthorized : Backend :=
  {| course_answer := ok_response sampleCourse;
     status_answer := Rejected unauthorized;
     payment_answer := Resolved notFound;
     membership_answer := ok_response [] |}.

Definition statusBroken : Backend :=
  {| course_answer := ok_response sampleCourse;
     status_answer := Resolved {| resp_status := 500; resp_handled := Rejected serverError |};
     payment_answer := Resolved notFound;
     membership_answer := ok_response [enrolledC2] |}.

(** The payment-proof check and the membership check are both refused. *)
Definition laterUnauthorized : Backend :=
  {| course_answer := ok_response sampleCourse;
     status_answer := ok_response {| asr_status := APPROVED |};
     payment_answer := Rejected unauthorized;
     membership_answer := Rejected unauthorized |}.

Definition certificate : File := {| file_name := "degree.pdf" |}.

Definition completeForm : EnrollmentFormData :=
  {| first_name := "Ada"; last_name := "Khan"; qualification := "MBBS";
     ultrasound_experience := "2 years"; contact_number := "0300";
     qualification_certificate := Some certificate |}.

Definition noFirstName : EnrollmentFormData :=
  {| first_name := EmptyString; last_name := "Khan"; qualification := "MBBS";
     ultrasound_experience := "2 years"; contact_number := "0300";
     qualification_certificate := Some certificate |}.

Definition noLastName : EnrollmentFormData :=
  {| first_name := "Ada"; last_name := EmptyString; qualification := "MBBS";
     ultrasound_experience := "2 years"; contact_number := "0300";
     qualification_certificate := Some certificate |}.

Definition noCertificate : EnrollmentFormData :=
  {| first_name := "Ada"; last_name := "Khan"; qualification := "MBBS";
     ultrasound_experience := "2 years"; contact_number := "0300";
     qualification_certificate := None |}.

Definition receipt : File := {| file_name := "receipt.png" |}.

Definition paymentStaged : State := upd_paymentFile (Some receipt) (upd_showPaymentForm true initialState).

(** The upload is answered with the unexpected status ["approved"]. *)
Definition uploadApproved : Outcome (Response (option PaymentProofData)) :=
  ok_response (Some {| ppd_status := Some "approved"; ppd_message := None |}).

(** The upload is answered 200 with no body to parse. *)
Definition uploadNoBody : Outcome (Response (option PaymentProofData)) :=
  ok_response None.

(** A 500 answer to a request whose body the page does not read. *)
Definition failedAnswer : Response unit :=
  {| resp_status := 500; resp_handled := Rejected serverError |}.

Definition lesson1 : Video :=
  {| id := "v1"; cloudinary_url := "https://cdn/v1.mp4"; title := "Intro";
     description := "First lesson"; watched := false |}.
Definition lesson2 : Video :=
  {| id := "v2"; cloudinary_url := "https://cdn/v2.mp4"; title := "Probe";
     description := "Second lesson"; watched := true |}.

Definition watching : State :=
  upd_selectedVideo (Some lesson1) (upd_videos [lesson1; lesson2] (upd_isEnrolled true initialState)).

(** ** The rest of the page *)

Definition setIsLoadingVideos v := modify (upd_isLoadingVideos v).
Definition setVideos v := modify (upd_videos v).
Definition setPurchaseInfo v := modify (upd_purchaseInfo v).
Definition setIsLoadingPurchaseInfo v := modify (upd_isLoadingPurchaseInfo v).

(** The effect that loads the videos; [enrolled] is the [isEnrolled] cell
    as the effect's closure sees it. *)
Definition fetchVideos (courseId : option string) (enrolled : bool)
    (answer : Outcome (Response (list Video))) : M unit :=
  match truthy courseId, enrolled with
  | Some cid, true =>
      setIsLoadingVideos true ;;
      try_finally
        (try_catch
           (response <- fetchWithAuth (VideosWithCheckpoint cid) answer ;;
            data <- handleApiResponse response ;;
            setVideos data ;;
            match data with
            | first :: _ => setSelectedVideo (Some first)
            | [] => ret tt
            end)
           (fun _ =>
              console_error "Failed to fetch videos:" ;;
              toast_error "Failed to load course videos."))
        (setIsLoadingVideos false)
  | _, _ => ret tt
  end.

(** The keys of the form and the values its inputs pass for them: the five
    text inputs pass their string, the file input passes its file. *)
Inductive TextField : Type :=
| K_first_name | K_last_name | K_qualification
| K_ultrasound_experience | K_contact_number.

Inductive FieldChange : Type :=
| TextChange (field : TextField) (value : string)
| CertificateChange (value : option File).

(** [{ ...prev, [field]: value }] *)
Definition with_field (c : FieldChange) (prev : EnrollmentFormData) : EnrollmentFormData :=
  match c with
  | TextChange K_first_name v =>
      {| first_name := v; last_name := last_name prev;
         qualification := qualification prev;
         ultrasound_experience := ultrasound_experience prev;
         contact_number := contact_number prev;
         qualification_certificate := qualification_certificate prev |}
  | TextChange K_last_name v =>
      {| first_name := first_name prev; last_name := v;
         qualification := qualification prev;
         ultrasound_experience := ultrasound_experience prev;
         contact_number := contact_number prev;
         qualification_certificate := qualification_certificate prev |}
  | TextChange K_qualification v =>
      {| first_name := first_name prev; last_name := last_name prev;
         qualification := v;
         ultrasound_experience := ultrasound_experience prev;
         contact_number := contact_number prev;
         qualification_certificate := qualification_certificate prev |}
  | TextChange K_ultrasound_experience v =>
      {| first_name := first_name prev; last_name := last_name prev;
         qualification := qualification prev;
         ultrasound_experience := v;
         contact_number := contact_number prev;
         qualification_certificate := qualification_certificate prev |}
  | TextChange K_contact_number v =>
      {| first_name := first_name prev; last_name := last_name prev;
         qualification := qualification prev;
         ultrasound_experience := ultrasound_experience prev;
         contact_number := v;
         qualification_certificate := qualification_certificate prev |}
  | CertificateChange f =>
      {| first_name := first_name prev; last_name := last_name prev;
         qualification := qualification prev;
         ultrasound_experience := ultrasound_experience prev;
         contact_number := contact_number prev;
         qualification_certificate := f |}
  end.

Definition text_of (field : TextField) (form : EnrollmentFormData) : string :=
  match field with
  | K_first_name => first_name form
  | K_last_name => last_name form
  | K_qualification => qualification form
  | K_ultrasound_experience => ultrasound_experience form
  | K_contact_number => contact_number form
  end.

(** [setEnrollmentForm(prev => ({ ...prev, [field]: value }))] *)
Definition handleInputChange (c : FieldChange) : M unit :=
  modify (fun s => upd_enrollmentForm (with_field c (enrollmentForm s)) s).

(** [e.target.files?.[0]]: the first file of the input, when it has files. *)
Definition first_file (files : option (list File)) : option File :=
  match files with
  | Some (f :: _) => Some f
  | _ => None
  end.

Definition handleFileChange (files : option (list File)) : M unit :=
  match first_file files with
  | Some file => handleInputChange (CertificateChange (Some file))
  | None => ret tt
  end.

Definition handlePaymentFileChange (files : option (list File)) : M unit :=
  match first_file files with
  | Some file => setPaymentFile (Some file)
  | None => ret tt
  end.

Definition fetchPurchaseInfo (courseId : option string)
    (answer : Outcome (Response PurchaseInfo)) : M unit :=
  match truthy courseId with
  | None => ret tt
  | Some cid =>
      setIsLoadingPurchaseInfo true ;;
      try_finally
        (try_catch
           (response <- fetchWithAuth (PurchaseInfoOf cid) answer ;;
            data <- handleApiResponse response ;;
            setPurchaseInfo (Some data))
           (fun _ => toast_error "Failed to load payment information."))
        (setIsLoadingPurchaseInfo false)
  end.

(** [cached] is the [purchaseInfo] cell as the handler's closure sees it. *)
Definition handleShowPaymentForm (courseId : option string) (cached : option PurchaseInfo)
    (answer : Outcome (Response PurchaseInfo)) : M unit :=
  match cached with
  | None => fetchPurchaseInfo courseId answer
  | Some _ => ret tt
  end ;;
  setShowPaymentForm true.

(** The handlers written in place on the two Cancel buttons and on the
    Back button. *)
Definition cancelEnrollmentForm : M unit := setShowEnrollmentForm false.
Definition cancelPaymentForm : M unit := setShowPaymentForm false ;; setPaymentFile None.
Definition backToCourses : M unit := navigate "/student/courses".

(** The notification of a failed application. *)
Definition application_failure_text (e : Thrown) : string :=
  match instanceof_Error e with
  | Some message => ("Failed to submit enrollment application: " ++ message)%string
  | None => "Failed to submit enrollment application."
  end.

(** The form after the user filled the five inputs and chose a file. *)
Definition fill (form : EnrollmentFormData) : list FieldChange :=
  [TextChange K_first_name (first_name form);
   TextChange K_last_name (last_name form);
   TextChange K_qualification (qualification form);
   TextChange K_ultrasound_experience (ultrasound_experience form);
   TextChange K_contact_number (contact_number form)].

Definition typed (changes : list FieldChange) (files : option (list File))
    (s : State) : State :=
  state_of (handleFileChange files
              (fold_left (fun st c => state_of (handleInputChange c st)) changes s)).

(** The cells after a sequence of choices in the certificate input. *)
Definition chosen (choices : list (option (list File))) (s : State) : State :=
  fold_left (fun st files => state_of (handleFileChange files st)) choices s.

(** ** What the page renders

    Of the markup only the conditions are kept: which page is returned, and
    which panels of the course page are present, in document order. *)

Inductive VideoArea : Type :=
| VideosLoading
| VideoPlayer (selected : option Video) (lessons : list Video)
| NoVideos.

Inductive Panel : Type :=
| EnrollButton
| EnrollmentFormPanel
| PendingPanel
| ApprovedPanel
| PaymentFormPanel
| RejectedPanel
| PaymentSubmittedPanel
| VideoSection (area : VideoArea).

Inductive View : Type :=
| LoadingView
| ErrorView (message : string)
| NotFoundView
| CourseView (c : CourseInfo) (panels : list Panel).

Definition status_is (st : ApplicationStatus) (s : State) : bool :=
  match applicationStatus s with
  | Some st' => ApplicationStatus_eqb st' st
  | None => false
  end.

Definition when (c : bool) (p : Panel) : list Panel := if c then [p] else [].

Definition videoArea (s : State) : VideoArea :=
  if isLoadingVideos s then VideosLoading
  else match videos s with
       | _ :: _ => VideoPlayer (selectedVideo s) (videos s)
       | [] => NoVideos
       end.

Definition panels (s : State) : list Panel :=
  when (status_is NOT_APPLIED s && negb (showEnrollmentForm s)) EnrollButton
  ++ when (status_is NOT_APPLIED s && showEnrollmentForm s) EnrollmentFormPanel
  ++ when (status_is PENDING s) PendingPanel
  ++ when (status_is APPROVED s && negb (isEnrolled s) && negb (showPaymentForm s)
           && negb (paymentSubmitted s)) ApprovedPanel
  ++ when (status_is APPROVED s && negb (isEnrolled s) && showPaymentForm s
           && negb (paymentSubmitted s)) PaymentFormPanel
  ++ when (status_is REJECTED s) RejectedPanel
  ++ when (paymentSubmitted s || paymentPending s) PaymentSubmittedPanel
  ++ (if isEnrolled s then [VideoSection (videoArea s)] else []).

Definition render (s : State) : View :=
  if isLoading s then LoadingView
  else match truthy (error s) with
       | Some message => ErrorView message
       | None =>
           match course s with
           | None => NotFoundView
           | Some c => CourseView c (panels s)
           end
       end.

(** The panels that depend on the application status. *)
Definition is_status_panel (p : Panel) : bool :=
  match p with
  | PaymentSubmittedPanel | VideoSection _ => false
  | _ => true
  end.

(** ** The page as a transition system

    What can happen to a mounted page: its effects run, and the user acts on
    what is rendered.  An action takes the values of its closure from the
    current cells. *)

Inductive Action : Type :=
| Reconcile (courseId : option string) (b : Backend)
| LoadVideos (courseId : option string) (answer : Outcome (Response (list Video)))
| ClickEnroll
| ChangeInput (c : FieldChange)
| ChooseCertificate (files : option (list File))
| SubmitForm (courseId : option string) (answer : Outcome (Response unit))
| CancelEnrollment
| ShowPaymentForm (courseId : option string) (answer : Outcome (Response PurchaseInfo))
| ChoosePaymentFile (files : option (list File))
| SubmitPaymentProof (courseId : option string)
    (answer : Outcome (Response (option PaymentProofData)))
| CancelPayment
| SelectVideo (video : Video)
| PlayVideo (video : Video) (answer : Outcome (Response unit))
| ToggleWatched (video : Video) (answer : Outcome (Response unit)).

Definition perform (a : Action) (s : State) : M unit :=
  match a with
  | Reconcile courseId b => fetchCourseAndStatus courseId b
  | LoadVideos courseId answer => fetchVideos courseId (isEnrolled s) answer
  | ClickEnroll => handleEnroll
  | ChangeInput c => handleInputChange c
  | ChooseCertificate files => handleFileChange files
  | SubmitForm courseId answer => handleFormSubmit courseId (enrollmentForm s) answer
  | CancelEnrollment => cancelEnrollmentForm
  | ShowPaymentForm courseId answer => handleShowPaymentForm courseId (purchaseInfo s) answer
  | ChoosePaymentFile files => handlePaymentFileChange files
  | SubmitPaymentProof courseId answer =>
      handlePaymentProofSubmit courseId (paymentFile s) answer
  | CancelPayment => cancelPaymentForm
  | SelectVideo video => handleVideoSelect video
  | PlayVideo video answer => handleVideoPlay video answer
  | ToggleWatched video answer => handleVideoToggleWatched video answer
  end.

Definition step (a : Action) (s : State) : State := state_of (perform a s s).

(** The video actions the rendered page offers: a lesson of the list can be
    selected or toggled, the selected video can be toggled or played. *)
Definition offered (a : Action) (s : State) : Prop :=
  match a with
  | SelectVideo video => In video (videos s)
  | PlayVideo video _ => selectedVideo s = Some video
  | ToggleWatched video _ => In video (videos s) \/ selectedVideo s = Some video
  | _ => True
  end.

Inductive reachable : State -> Prop :=
| reachable_initial : reachable initialState
| reachable_step (a : Action) (s : State) :
    reachable s -> offered a s -> reachable (step a s).

(** The selected video is a lesson of the list, when there is a list. *)
Definition selection_listed (s : State) : Prop :=
  videos s <> [] -> forall p, selectedVideo s = Some p -> In p (videos s).

(** ** More sample data *)

(** Approved, with a payment proof under review. *)
Definition proofUnderReview : Backend :=
  {| course_answer := ok_response sampleCourse;
     status_answer := ok_response {| asr_status := APPROVED |};
     payment_answer := ok_response {| psd_status := "pending" |};
     membership_answer := ok_response [] |}.

(** Approved, and the payment-proof check breaks or is answered 500. *)
Definition proofCheckBroken : Backend :=
  {| course_answer := ok_response sampleCourse;
     status_answer := ok_response {| asr_status := APPROVED |};
     payment_answer := Rejected serverError;
     membership_answer := ok_response [] |}.

Definition serverErrorResponse : Response PaymentStatusData :=
  {| resp_status := 500; resp_handled := Rejected serverError |}.

Definition proofCheck500 : Backend :=
  {| course_answer := ok_response sampleCourse;
     status_answer := ok_response {| asr_status := APPROVED |};
     payment_answer := Resolved serverErrorResponse;
     membership_answer := ok_response [] |}.

(** The membership check breaks. *)
Definition membershipBroken : Backend :=
  {| course_answer := ok_response sampleCourse;
     status_answer := ok_response {| asr_status := PENDING |};
     payment_answer := Resolved notFound;
     membership_answer := Rejected serverError |}.

(** A page with both payment-proof cells on, and a page that shows an
    error. *)
Definition proofSubmitted : State :=
  upd_paymentPending true (upd_paymentSubmitted true initialState).

Definition erroredPage : State :=
  upd_isLoading false
    (upd_error (Some "Failed to load course details. Please try again later.")
       initialState).

Definition lessonsAnswer : Outcome (Response (list Video)) :=
  ok_response [lesson1; lesson2].

(** The page after the load of an enrolled student and of the videos. *)
Definition enrolledPage : State :=
  step (LoadVideos (Some "c1") lessonsAnswer)
    (step (Reconcile (Some "c1") pendingButEnrolled) initialState).

(** The page after the load of an approved student whose proof is under
    review. *)
Definition underReviewPage : State :=
  step (Reconcile (Some "c1") proofUnderReview) initialState.

(** * Properties *)

Ltac unfold_run :=
  cbv [fetchCourseAndStatus fetchStatus checkPaymentProof checkEnrolled
       handleFormSubmit handlePaymentProofSubmit handleVideoToggleWatched
       handleVideoPlay handleVideoSelect handleEnroll
       bind try_catch try_finally ret emit modify await send fetchWithAuth
       handleApiResponse navigate toast_error toast_success console_log
       console_warn console_error preventDefault
       setCourse setApplicationStatus setIsLoading setError
       setShowEnrollmentForm setIsSubmitting setEnrollmentForm
       setShowPaymentForm setPaymentFile setIsSubmittingPayment
       setPaymentSubmitted setPaymentPending setIsEnrolled
       setCompletingVideoId setVideos_with setSelectedVideo_with
       setSelectedVideo result_of state_of trace_of settled resolvedStatus
       read_body throw TypeError] in *.

Lemma find_lists_course (cid : string) (l : list EnrolledCourse) :
  match find (fun c => (ec_id c =? cid)%string) l with
  | Some _ => true
  | None => false
  end = lists_course cid l.
Proof.
  induction l as [|c l IH]; cbn; [reflexivity|].
  destruct (ec_id c =? cid)%string; [reflexivity|exact IH].
Qed.

Lemma lists_course_In (cid : string) (l : list EnrolledCourse) :
  lists_course cid l = true <-> exists c, In c l /\ ec_id c = cid.
Proof.
  unfold lists_course. rewrite existsb_exists.
  split; intros [c [Hin Hc]]; exists c; split; trivial;
    now apply String.eqb_eq.
Qed.

(** ** Traces *)

Lemma requests_app (t1 t2 : Trace) : requests (t1 ++ t2) = requests t1 ++ requests t2.
Proof.
  induction t1 as [|ev t1 IH]; [reflexivity|].
  destruct ev; cbn; now rewrite ?IH.
Qed.

Lemma navigations_app (t1 t2 : Trace) :
  navigations (t1 ++ t2) = navigations t1 ++ navigations t2.
Proof.
  induction t1 as [|ev t1 IH]; [reflexivity|].
  destruct ev; cbn; now rewrite ?IH.
Qed.

(** ** The steps of the reconciler *)

(** A 404 answer is the negative signal: both cells are cleared. *)
Lemma paymentProofFlags_404 (b : Backend) (r : Response PaymentStatusData)
    (before : bool * bool) :
  payment_answer b = Resolved r ->
  resp_status r = 404 ->
  paymentProofFlags b before = (false, false).
Proof.
  intros Hpay H404. unfold paymentProofFlags, resp_ok. now rewrite Hpay, H404.
Qed.

Lemma with_paymentFlags_same (s : State) :
  with_paymentFlags (paymentSubmitted s, paymentPending s) s = s.
Proof. destruct s; reflexivity. Qed.

(** The payment-proof check sends its one request, never throws, never
    navigates and writes the two payment-proof cells only. *)
Lemma checkPaymentProof_spec (cid : string) (b : Backend) (s : State) :
  exists t,
    checkPaymentProof cid b s
    = (Resolved tt,
       with_paymentFlags (paymentProofFlags b (paymentSubmitted s, paymentPending s)) s,
       t)
    /\ requests t = [PaymentProofStatus cid]
    /\ navigations t = [].
Proof.
  unfold checkPaymentProof, paymentProofFlags. unfold_run.
  destruct (payment_answer b) as [r|e]; [|eexists; repeat split].
  destruct (resp_ok r).
  - destruct (resp_handled r) as [d|e]; [|eexists; repeat split].
    destruct (psd_status d =? "pending")%string;
      [|rewrite with_paymentFlags_same]; eexists; repeat split.
  - destruct (resp_status r =? 404);
      [|rewrite with_paymentFlags_same]; eexists; repeat split.
Qed.

(** The membership check sends its one request, never throws and never
    navigates; a failure leaves every cell as it was. *)
Lemma checkEnrolled_spec (cid : string) (st : ApplicationStatus) (b : Backend) (s : State) :
  exists t,
    checkEnrolled cid {| asr_status := st |} b s
    = (Resolved tt, enrolled_state cid st b s, t)
    /\ requests t = [MyCourses]
    /\ navigations t = [].
Proof.
  unfold checkEnrolled, enrolled_state. unfold_run.
  destruct (membership_answer b) as [[code [l|e]]|e]; cbn;
    [|eexists; repeat split..].
  rewrite find_lists_course.
  destruct (lists_course cid l), (ApplicationStatus_eqb st APPROVED);
    eexists; repeat split.
Qed.

(** The enrollment-status fetch sends its one request, never throws, touches
    no cell and gives the status of [resolvedStatus]. *)
Lemma fetchStatus_spec (cid : string) (b : Backend) (s : State) :
  exists t,
    fetchStatus cid b s = (Resolved {| asr_status := resolvedStatus b |}, s, t)
    /\ requests t = [EnrollmentStatus cid]
    /\ navigations t = [].
Proof.
  unfold fetchStatus. unfold_run.
  destruct (status_answer b) as [[code [[st]|e]]|e]; eexists; repeat split.
Qed.

(** ** The three exits of the reconciler *)

Section Reconciler.

Variable courseId : option string.
Variable b : Backend.
Variable s : State.

Local Abbreviation run := (fetchCourseAndStatus courseId b s).

(** No course id: the page error is set and nothing is sent. *)
Lemma reconcile_no_course_id :
  truthy courseId = None ->
  run = (Resolved tt, upd_isLoading false (upd_error (Some "Course ID is missing.") s), []).
Proof. intros H. unfold fetchCourseAndStatus. rewrite H. reflexivity. Qed.

(** The course fetch fails: the flow stops after the first two requests, and
    redirects or sets the page error. *)
Lemma reconcile_course_failed (cid : string) (e : Thrown) :
  truthy courseId = Some cid ->
  settled (course_answer b) = Rejected e ->
  result_of run = Resolved tt
  /\ state_of run = course_failure_state s e
  /\ requests (trace_of run) = [ExploreCourse cid; EnrollmentStatus cid]
  /\ navigations (trace_of run)
     = if instanceof_UnauthorizedError e then ["/login"] else [].
Proof.
  intros Hc He. unfold course_failure_state, fetchCourseAndStatus.
  rewrite Hc.
  cbv [bind try_catch try_finally send emit modify setIsLoading await
       handleApiResponse navigate setError ret].
  destruct (fetchStatus_spec cid b (upd_isLoading true s)) as (t & -> & Hreq & Hnav).
  unfold settled in He.
  destruct (course_answer b) as [r|e0].
  - rewrite He. destruct (instanceof_UnauthorizedError e); cbn;
      rewrite ?app_nil_r, ?requests_app, ?navigations_app, Hreq, Hnav; auto.
  - injection He as ->. destruct (instanceof_UnauthorizedError e); cbn;
      rewrite ?app_nil_r, ?requests_app, ?navigations_app, Hreq, Hnav; auto.
Qed.

(** The course fetch succeeds: the flow runs to its end without redirect,
    asks for the payment proof exactly when the resolved status is
    [APPROVED], and always asks for the membership list. *)
Lemma reconcile_course_ok (cid : string) (ci : CourseInfo) :
  truthy courseId = Some cid ->
  settled (course_answer b) = Resolved ci ->
  result_of run = Resolved tt
  /\ state_of run = published b s cid ci
  /\ requests (trace_of run)
     = [ExploreCourse cid; EnrollmentStatus cid]
       ++ (if ApplicationStatus_eqb (resolvedStatus b) APPROVED
           then [PaymentProofStatus cid] else [])
       ++ [MyCourses]
  /\ navigations (trace_of run) = [].
Proof.
  intros Hc Hci. unfold published, fetchCourseAndStatus. rewrite Hc.
  cbv [bind try_catch try_finally send emit modify setIsLoading await
       handleApiResponse navigate setError ret setCourse setApplicationStatus].
  destruct (fetchStatus_spec cid b (upd_isLoading true s)) as (t & -> & Hreq & Hnav).
  unfold settled in Hci.
  destruct (course_answer b) as [r|e0]; [|discriminate].
  rewrite Hci. cbn [asr_status].
  set (s1 := upd_applicationStatus _ _).
  destruct (ApplicationStatus_eqb (resolvedStatus b) APPROVED).
  - destruct (checkPaymentProof_spec cid b s1) as (tp & -> & Hreqp & Hnavp).
    destruct (checkEnrolled_spec cid (resolvedStatus b) b
                (with_paymentFlags
                   (paymentProofFlags b (paymentSubmitted s1, paymentPending s1)) s1))
      as (te & -> & Hreqe & Hnave).
    cbn. rewrite ?app_nil_r, ?requests_app, ?navigations_app.
    rewrite Hreq, Hnav, Hreqp, Hnavp, Hreqe, Hnave. auto.
  - destruct (checkEnrolled_spec cid (resolvedStatus b) b s1)
      as (te & -> & Hreqe & Hnave).
    cbn. rewrite ?app_nil_r, ?requests_app, ?navigations_app.
    rewrite Hreq, Hnav, Hreqe, Hnave. auto.
Qed.

(** What is published after a successful course fetch. *)
Lemma published_fields (cid : string) (ci : CourseInfo) :
  let enrolled :=
    match settled (membership_answer b) with
    | Resolved l => lists_course cid l
    | Rejected _ => false
    end in
  course (published b s cid ci) = Some ci
  /\ error (published b s cid ci) = error s
  /\ isLoading (published b s cid ci) = false
  /\ applicationStatus (published b s cid ci)
     = Some (if enrolled then APPROVED else resolvedStatus b)
  /\ isEnrolled (published b s cid ci)
     = match settled (membership_answer b) with
       | Resolved l => lists_course cid l
       | Rejected _ => isEnrolled s
       end
  /\ (paymentSubmitted (published b s cid ci), paymentPending (published b s cid ci))
     = if ApplicationStatus_eqb (resolvedStatus b) APPROVED
       then paymentProofFlags b (paymentSubmitted s, paymentPending s)
       else (paymentSubmitted s, paymentPending s).
Proof.
  unfold published, enrolled_state.
  destruct (settled (membership_answer b)) as [l|e];
    [destruct (lists_course cid l)|];
    destruct (resolvedStatus b); cbn;
    try destruct (paymentProofFlags b _); cbn; auto 10.
Qed.

(** The requests of a run, in the order they are sent. *)
Lemma reconcile_requests :
  requests (trace_of run)
  = match truthy courseId with
    | None => []
    | Some cid =>
        [ExploreCourse cid; EnrollmentStatus cid]
        ++ match settled (course_answer b) with
           | Rejected _ => []
           | Resolved _ =>
               (if ApplicationStatus_eqb (resolvedStatus b) APPROVED
                then [PaymentProofStatus cid] else [])
               ++ [MyCourses]
           end
    end.
Proof.
  destruct (truthy courseId) as [cid|] eqn:Hc.
  - destruct (settled (course_answer b)) as [ci|e] eqn:Hs.
    + now destruct (reconcile_course_ok cid ci Hc Hs) as (_ & _ & -> & _).
    + now destruct (reconcile_course_failed cid e Hc Hs) as (_ & _ & -> & _).
  - now rewrite (reconcile_no_course_id Hc).
Qed.

Lemma truthy_Some (cid : string) : truthy courseId = Some cid -> courseId = Some cid.
Proof. destruct courseId as [[|a c]|]; cbn; congruence. Qed.

(** A request of the later steps is sent only after the course fetch went
    through. *)
Lemma membership_issued_inv :
  issued KMembership (trace_of run) = true ->
  exists cid ci, truthy courseId = Some cid /\ settled (course_answer b) = Resolved ci.
Proof.
  unfold issued. rewrite reconcile_requests.
  destruct (truthy courseId) as [cid|]; [|discriminate].
  destruct (settled (course_answer b)) as [ci|e]; [eauto|discriminate].
Qed.

Lemma payment_issued_inv :
  issued KPaymentProofStatus (trace_of run) = true ->
  resolvedStatus b = APPROVED
  /\ exists cid ci, truthy courseId = Some cid /\ settled (course_answer b) = Resolved ci.
Proof.
  unfold issued. rewrite reconcile_requests.
  destruct (truthy courseId) as [cid|]; [|discriminate].
  destruct (settled (course_answer b)) as [ci|e]; [|discriminate].
  destruct (resolvedStatus b); cbn; try discriminate. eauto.
Qed.

Lemma first_requests_issued_inv (k : RequestKind) :
  k = KCourse \/ k = KEnrollmentStatus ->
  issued k (trace_of run) = true ->
  exists cid, truthy courseId = Some cid.
Proof.
  unfold issued. rewrite reconcile_requests.
  destruct (truthy courseId) as [cid|]; [eauto|].
  intros [->| ->]; discriminate.
Qed.

(** ** Properties of the reconciler *)

(** C1.  Whatever the enrollment-status fetch and the payment-proof check
    gave: when the membership request was sent and succeeded with a list
    that holds an entry whose id is the course id, the published application
    status is [APPROVED] and the enrollment flag is true. *)
Theorem membership_promotes_to_approved (l : list EnrolledCourse) :
  issued KMembership (trace_of run) = true ->
  settled (membership_answer b) = Resolved l ->
  (exists c, In c l /\ Some (ec_id c) = courseId) ->
  applicationStatus (state_of run) = Some APPROVED
  /\ isEnrolled (state_of run) = true.
Proof.
  intros Hsent Hl (c & Hin & Hid).
  destruct (membership_issued_inv Hsent) as (cid & ci & Hc & Hci).
  assert (Hlists : lists_course cid l = true).
  { apply lists_course_In. exists c. split; [exact Hin|].
    apply truthy_Some in Hc. congruence. }
  destruct (reconcile_course_ok cid ci Hc Hci) as (_ & -> & _).
  destruct (published_fields cid ci) as (_ & _ & _ & -> & -> & _).
  rewrite Hl, Hlists. auto.
Qed.

(** C2, as the code has it.  The reconciler redirects to the login page
    exactly when the course-metadata request was sent and failed with an
    authorization failure, and then once; this is the only navigation it
    performs.  Whether it navigates depends on the course id and on the
    answer to the course-metadata request alone: an authorization failure
    of the enrollment-status, payment-proof-status or membership request
    brings no navigation. *)
Theorem redirect_only_on_course_auth_failure :
  navigations (trace_of run)
  = match truthy courseId, settled (course_answer b) with
    | Some _, Rejected e => if instanceof_UnauthorizedError e then ["/login"] else []
    | _, _ => []
    end.
Proof.
  destruct (truthy courseId) as [cid|] eqn:Hc.
  - destruct (settled (course_answer b)) as [ci|e] eqn:Hs.
    + now destruct (reconcile_course_ok cid ci Hc Hs) as (_ & _ & _ & ->).
    + now destruct (reconcile_course_failed cid e Hc Hs) as (_ & _ & _ & ->).
  - now rewrite (reconcile_no_course_id Hc).
Qed.

(** C3.  When the course-metadata request was sent and failed with [e]:
    if [e] is an authorization failure, exactly one navigation, to
    ["/login"], is performed and the page-level error keeps the value it
    had (unset stays unset); otherwise the page-level error is set and no
    navigation is performed. *)
Theorem course_failure_redirect_or_error (e : Thrown) :
  issued KCourse (trace_of run) = true ->
  settled (course_answer b) = Rejected e ->
  if instanceof_UnauthorizedError e
  then navigations (trace_of run) = ["/login"]
       /\ error (state_of run) = error s
  else error (state_of run)
       = Some "Failed to load course details. Please try again later."
       /\ navigations (trace_of run) = [].
Proof.
  intros Hsent He.
  destruct (first_requests_issued_inv KCourse (or_introl eq_refl) Hsent) as (cid & Hc).
  destruct (reconcile_course_failed cid e Hc He) as (_ & -> & _ & ->).
  unfold course_failure_state.
  destruct (instanceof_UnauthorizedError e); cbn; auto.
Qed.

(** C7.  When the application status resolved from the enrollment-status
    fetch (the fetched status, or [NOT_APPLIED] after a failure) is not
    [APPROVED], no payment-proof-status request is sent. *)
Theorem payment_check_only_when_approved :
  resolvedStatus b <> APPROVED ->
  issued KPaymentProofStatus (trace_of run) = false.
Proof.
  intros Hst.
  destruct (issued KPaymentProofStatus (trace_of run)) eqn:Hsent; [|reflexivity].
  now destruct (payment_issued_inv Hsent) as (Happ & _).
Qed.

(** C9.  The enrollment-status fetch returns [APPROVED], the
    payment-proof-status request is sent and answered with status 404, and
    the membership fetch returns the empty list: the published state has
    application status [APPROVED], both payment-proof cells false and the
    enrollment flag false. *)
Theorem approved_without_proof_not_enrolled (r : Response PaymentStatusData) :
  settled (status_answer b) = Resolved {| asr_status := APPROVED |} ->
  issued KPaymentProofStatus (trace_of run) = true ->
  payment_answer b = Resolved r ->
  resp_status r = 404 ->
  settled (membership_answer b) = Resolved [] ->
  applicationStatus (state_of run) = Some APPROVED
  /\ paymentSubmitted (state_of run) = false
  /\ paymentPending (state_of run) = false
  /\ isEnrolled (state_of run) = false.
Proof.
  intros Hst Hsent Hpay H404 Hmem.
  destruct (payment_issued_inv Hsent) as (Happ & cid & ci & Hc & Hci).
  destruct (reconcile_course_ok cid ci Hc Hci) as (_ & -> & _).
  destruct (published_fields cid ci) as (_ & _ & _ & -> & -> & Hflags).
  rewrite Happ in Hflags. cbn [ApplicationStatus_eqb] in Hflags.
  rewrite (paymentProofFlags_404 b r _ Hpay H404) in Hflags.
  apply pair_equal_spec in Hflags. destruct Hflags as [-> ->].
  rewrite Hmem, Happ. cbn. auto.
Qed.

End Reconciler.

(** C8.  When the enrollment-status request was sent and failed (with an
    authorization failure or any other), the reconciler goes on with
    [NOT_APPLIED]: no exception leaves it, the cells it publishes are those
    it publishes when the request answers [NOT_APPLIED], and when the course
    fetch succeeds the page-level error is left as it was, the membership
    request is sent and the application status is [NOT_APPLIED] unless the
    membership list promotes it.  The page-level error changes only when the
    course fetch itself fails. *)
Theorem status_failure_degrades (cid : string) (b : Backend) (s : State) (e : Thrown) :
  issued KEnrollmentStatus (trace_of (fetchCourseAndStatus (Some cid) b s)) = true ->
  settled (status_answer b) = Rejected e ->
  let r := fetchCourseAndStatus (Some cid) b s in
  resolvedStatus b = NOT_APPLIED
  /\ result_of r = Resolved tt
  /\ state_of r
     = state_of (fetchCourseAndStatus (Some cid)
                   (with_status_answer (ok_response {| asr_status := NOT_APPLIED |}) b) s)
  /\ (forall ci, settled (course_answer b) = Resolved ci ->
        error (state_of r) = error s
        /\ issued KMembership (trace_of r) = true
        /\ issued KPaymentProofStatus (trace_of r) = false
        /\ applicationStatus (state_of r)
           = Some (match settled (membership_answer b) with
                   | Resolved l => if lists_course cid l then APPROVED else NOT_APPLIED
                   | Rejected _ => NOT_APPLIED
                   end))
  /\ (error (state_of r) <> error s ->
      exists e', settled (course_answer b) = Rejected e').
Proof.
  intros Hsent He r. subst r.
  destruct (first_requests_issued_inv (Some cid) b s KEnrollmentStatus
              (or_intror eq_refl) Hsent) as (cid' & Hc).
  assert (cid' = cid) as -> by (apply truthy_Some in Hc; congruence).
  assert (Hst : resolvedStatus b = NOT_APPLIED)
    by (unfold resolvedStatus; now rewrite He).
  set (b' := with_status_answer _ b).
  split; [exact Hst|].
  destruct (settled (course_answer b)) as [ci|e'] eqn:Hci.
  - destruct (reconcile_course_ok (Some cid) b s cid ci Hc Hci) as (-> & -> & Hreq & _).
    destruct (reconcile_course_ok (Some cid) b' s cid ci Hc Hci) as (_ & -> & _).
    destruct (published_fields b s cid ci) as (_ & Herr & _ & Happ & _).
    split; [reflexivity|]. split.
    { unfold published, enrolled_state. now rewrite Hst. }
    split; [|intros Hne; now rewrite Herr in Hne].
    intros ci' _. rewrite Herr, Happ. unfold issued. rewrite Hreq, Hst.
    split; [reflexivity|]. split; [reflexivity|]. split; [reflexivity|].
    now destruct (settled (membership_answer b)).
  - destruct (reconcile_course_failed (Some cid) b s cid e' Hc Hci) as (-> & -> & _).
    destruct (reconcile_course_failed (Some cid) b' s cid e' Hc Hci) as (_ & -> & _).
    split; [reflexivity|]. split; [reflexivity|].
    split; [discriminate|eauto].
Qed.

(** ** The application form *)

Lemma is_empty_true (x : string) : is_empty x = true <-> x = EmptyString.
Proof. destruct x; cbn; split; congruence. Qed.

Lemma text_field_empty_true (form : EnrollmentFormData) :
  text_field_empty form = true
  <-> first_name form = EmptyString \/ last_name form = EmptyString \/ qualification form = EmptyString
      \/ ultrasound_experience form = EmptyString \/ contact_number form = EmptyString.
Proof.
  unfold text_field_empty. rewrite !orb_true_iff, !is_empty_true. tauto.
Qed.

(** C4, as the code has it.  When one of the five textual fields is empty or
    no certificate is attached, submitting sends no request and leaves every
    cell as it was.  With a course id, one rejection is shown: the same
    "fill in all required fields" reason whichever textual field is empty,
    and the "upload your qualification certificate" reason when only the
    file is missing.  Without a course id nothing is shown. *)
Theorem incomplete_form_rejected_locally (courseId : option string)
    (form : EnrollmentFormData) (answer : Outcome (Response unit)) (s : State) :
  first_name form = EmptyString \/ last_name form = EmptyString \/ qualification form = EmptyString
  \/ ultrasound_experience form = EmptyString \/ contact_number form = EmptyString
  \/ qualification_certificate form = None ->
  let r := handleFormSubmit courseId form answer s in
  requests (trace_of r) = []
  /\ state_of r = s
  /\ toasts (trace_of r)
     = match truthy courseId with
       | None => []
       | Some _ =>
           [(ToastError,
             if text_field_empty form then "Please fill in all required fields."
             else "Please upload your qualification certificate.")]
       end.
Proof.
  intros Hmissing r. subst r. unfold handleFormSubmit.
  destruct (truthy courseId) as [cid|]; [|now cbn].
  fold (text_field_empty form).
  destruct (text_field_empty form) eqn:Htext; [now cbn|].
  destruct (qualification_certificate form) as [certificate|]; [|now cbn].
  exfalso.
  assert (Hnot : text_field_empty form <> true) by congruence.
  rewrite text_field_empty_true in Hnot.
  intuition discriminate.
Qed.

(** ** The payment-proof form *)

(** When the upload request was sent and succeeded with a body [data] that
    is there: both payment-proof cells are true, the form is closed and the
    staged file cleared, whatever the status field of [data] is; the user
    sees one success notification and no error; and a warning is written to
    the console exactly when the status field is absent or not
    ["pending"]. *)
Theorem payment_proof_upload_success (courseId : option string) (file : option File)
    (answer : Outcome (Response (option PaymentProofData))) (data : PaymentProofData)
    (s : State) :
  issued KPaymentProof (trace_of (handlePaymentProofSubmit courseId file answer s)) = true ->
  settled answer = Resolved (Some data) ->
  let r := handlePaymentProofSubmit courseId file answer s in
  paymentSubmitted (state_of r) = true
  /\ paymentPending (state_of r) = true
  /\ showPaymentForm (state_of r) = false
  /\ paymentFile (state_of r) = None
  /\ toasts (trace_of r)
     = [(ToastSuccess,
         message_or (ppd_message data) "Payment proof submitted successfully!")]
  /\ console ConsoleWarn (trace_of r)
     = if is_pending (ppd_status data) then []
       else ["Payment status not returned as pending in POST response. Optimistically updating UI."].
Proof.
  intros Hsent Hdata r. subst r. revert Hsent. unfold handlePaymentProofSubmit.
  destruct (truthy courseId) as [cid|]; [|discriminate].
  destruct file as [staged|]; [|discriminate].
  intros _. unfold settled in Hdata.
  destruct answer as [response|e]; [|discriminate].
  unfold_run. rewrite Hdata.
  destruct (is_pending (ppd_status data)); cbn; auto 10.
Qed.

(** C5.  The handler breaks the claim on a successful upload whose parsed
    body is not there, a case its own test [data && ...] provides for: the
    read of [data.message] comes before that test and throws, so the user is
    shown the failure notification, the payment-proof cells stay off, the
    form stays open and the file stays staged, although the request was sent
    and succeeded. *)
Theorem upload_without_body_is_reported_failed :
  issued KPaymentProof
    (trace_of (handlePaymentProofSubmit (Some "c1") (Some receipt) uploadNoBody paymentStaged))
  = true
  /\ settled uploadNoBody = Resolved None
  /\ handlePaymentProofSubmit (Some "c1") (Some receipt) uploadNoBody paymentStaged
     = (Resolved tt,
        upd_isSubmittingPayment false paymentStaged,
        [EvPreventDefault; EvRequest (PaymentProof "c1" receipt);
         EvToast ToastError "Failed to submit payment proof."])
  /\ paymentSubmitted (upd_isSubmittingPayment false paymentStaged) = false
  /\ paymentPending (upd_isSubmittingPayment false paymentStaged) = false
  /\ showPaymentForm (upd_isSubmittingPayment false paymentStaged) = true
  /\ paymentFile (upd_isSubmittingPayment false paymentStaged) = Some receipt.
Proof. repeat split. Qed.

(** C10.  With no staged file, or no course id, submitting the payment-proof
    form does nothing: no request, no notification, no navigation, and every
    cell is left as it was. *)
Theorem payment_submit_without_file_is_noop (courseId : option string)
    (file : option File) (answer : Outcome (Response (option PaymentProofData)))
    (s : State) :
  file = None \/ truthy courseId = None ->
  let r := handlePaymentProofSubmit courseId file answer s in
  result_of r = Resolved tt
  /\ state_of r = s
  /\ requests (trace_of r) = []
  /\ toasts (trace_of r) = []
  /\ navigations (trace_of r) = []
  /\ console ConsoleLog (trace_of r) ++ console ConsoleWarn (trace_of r)
     ++ console ConsoleError (trace_of r) = [].
Proof.
  intros Hnone r. subst r. unfold handlePaymentProofSubmit.
  destruct Hnone as [-> | ->]; [destruct (truthy courseId)|]; now cbn.
Qed.

(** ** The watched flag *)

Lemma mark_in_list_watched (video : Video) (w : bool) (l : list Video) (v : Video) :
  In v (mark_in_list video w l) -> id v = id video -> watched v = w.
Proof.
  unfold mark_in_list. rewrite in_map_iff. intros (v0 & Hv & _) Hid.
  destruct (id v0 =? id video)%string eqn:E; subst v; [reflexivity|].
  apply String.eqb_neq in E. contradiction.
Qed.

Lemma mark_in_list_other (video : Video) (w : bool) (l : list Video) (v : Video) :
  In v l -> id v <> id video -> In v (mark_in_list video w l).
Proof.
  intros Hin Hne. unfold mark_in_list. apply in_map_iff. exists v.
  apply String.eqb_neq in Hne. now rewrite Hne.
Qed.

Lemma mark_in_list_entry (video : Video) (w : bool) (l : list Video) :
  In video l -> In (with_watched w video) (mark_in_list video w l).
Proof.
  intros Hin. unfold mark_in_list. apply in_map_iff. exists video.
  now rewrite String.eqb_refl.
Qed.

(** The toggle in one equation: what a resolved and what a rejected request
    leave behind. *)
Lemma toggle_state (video : Video) (answer : Outcome (Response unit)) (s : State) :
  state_of (handleVideoToggleWatched video answer s)
  = match answer with
    | Resolved _ =>
        upd_completingVideoId None
          (upd_selectedVideo
             (mark_selected video (negb (watched video)) (selectedVideo s))
             (upd_videos (mark_in_list video (negb (watched video)) (videos s))
                (upd_completingVideoId (Some (id video)) s)))
    | Rejected _ =>
        upd_completingVideoId None (upd_completingVideoId (Some (id video)) s)
    end.
Proof. destruct answer; reflexivity. Qed.

(** For a video of the list: after a toggle whose request resolved,
    the entry of the list is the old entry with its watched flag negated,
    every entry with that id carries the negated flag, and so does the
    selected video when it has that id, so that the two copies agree; after
    a toggle whose request was rejected, the list and the selected video are
    what they were. *)
Theorem toggle_watched_copies_agree (video : Video)
    (answer : Outcome (Response unit)) (s : State) :
  In video (videos s) ->
  let s' := state_of (handleVideoToggleWatched video answer s) in
  match answer with
  | Resolved _ =>
      In (with_watched (negb (watched video)) video) (videos s')
      /\ (forall v, In v (videos s') -> id v = id video ->
                    watched v = negb (watched video))
      /\ (forall p, selectedVideo s = Some p -> id p = id video ->
                    selectedVideo s' = Some (with_watched (negb (watched video)) p))
      /\ (forall v p, In v (videos s') -> selectedVideo s' = Some p ->
                      id v = id video -> id p = id video ->
                      watched v = watched p)
  | Rejected _ =>
      videos s' = videos s /\ selectedVideo s' = selectedVideo s
  end.
Proof.
  intros Hin s'. subst s'. rewrite toggle_state.
  destruct answer as [response|e]; cbn; [|auto].
  assert (Hsel : forall p, mark_selected video (negb (watched video)) (selectedVideo s) = Some p ->
                           id p = id video -> watched p = negb (watched video)).
  { intros p. unfold mark_selected.
    destruct (selectedVideo s) as [q|]; [|discriminate].
    destruct (id q =? id video)%string eqn:E.
    - now intros [= <-].
    - intros [= ->] Hid. apply String.eqb_neq in E. contradiction. }
  split; [now apply mark_in_list_entry|].
  split; [intros v; apply mark_in_list_watched|].
  split.
  - intros p -> Hid. cbn. apply String.eqb_eq in Hid. now rewrite Hid.
  - intros v p Hv Hp Hidv Hidp.
    rewrite (mark_in_list_watched _ _ _ _ Hv Hidv). symmetry. now apply Hsel.
Qed.

(** C6.  The handler breaks the failure half of the claim when the request
    is answered with an error status.  [fetchWithAuth] resolves with such an
    answer (the reconciler reads [ok] and [status] of one) and, unlike the
    other handlers, this one does not pass it to [handleApiResponse]: the
    toggle of an unwatched lesson that the backend answers with 500 flips
    the entry of the list and the selected copy and notifies a success. *)
Theorem toggle_flips_on_error_answer :
  In lesson1 (videos watching)
  /\ watched lesson1 = false
  /\ resp_ok failedAnswer = false
  /\ videos (state_of (handleVideoToggleWatched lesson1 (Resolved failedAnswer) watching))
     = [with_watched true lesson1; lesson2]
  /\ selectedVideo
       (state_of (handleVideoToggleWatched lesson1 (Resolved failedAnswer) watching))
     = Some (with_watched true lesson1)
  /\ videos (state_of (handleVideoToggleWatched lesson1 (Resolved failedAnswer) watching))
     <> videos watching
  /\ selectedVideo
       (state_of (handleVideoToggleWatched lesson1 (Resolved failedAnswer) watching))
     <> selectedVideo watching
  /\ toasts (trace_of (handleVideoToggleWatched lesson1 (Resolved failedAnswer) watching))
     = [(ToastSuccess, "Video marked as completed!")].
Proof.
  repeat split; try discriminate. left. reflexivity.
Qed.

(** * The properties at work *)

(** A complete form goes out, and a success moves the application to
    [PENDING] and closes the form. *)
Example complete_form_is_sent :
  handleFormSubmit (Some "c1") completeForm (ok_response tt) initialState
  = (Resolved tt,
     upd_isSubmitting false
       (upd_showEnrollmentForm false
          (upd_applicationStatus (Some PENDING) (upd_isSubmitting true initialState))),
     [EvPreventDefault; EvRequest (Apply "c1" completeForm certificate);
      EvToast ToastSuccess "Enrollment application submitted successfully!"]).
Proof. reflexivity. Qed.

(** The toggle does not read the response: a promise that resolves with a
    response of any status toggles both copies. *)
Example toggle_ignores_response_status :
  state_of (handleVideoToggleWatched lesson1
              (Resolved {| resp_status := 500; resp_handled := Rejected serverError |})
              watching)
  = state_of (handleVideoToggleWatched lesson1 (ok_response tt) watching).
Proof. reflexivity. Qed.

Lemma membership_promotes_to_approved_witness :
  applicationStatus (state_of (fetchCourseAndStatus (Some "c1") pendingButEnrolled initialState))
  = Some APPROVED
  /\ isEnrolled (state_of (fetchCourseAndStatus (Some "c1") pendingButEnrolled initialState))
     = true.
Proof.
  apply (membership_promotes_to_approved (Some "c1") pendingButEnrolled initialState
           [enrolledC2; enrolledC1]).
  - reflexivity.
  - reflexivity.
  - exists enrolledC1. split; [right; left; reflexivity|reflexivity].
Defined.

(** C2 as stated fails: an authorization failure of the enrollment-status
    request, and of the payment-proof-status and membership requests, each
    sent and refused, brings no redirect. *)
Lemma auth_failure_elsewhere_no_redirect :
  instanceof_UnauthorizedError unauthorized = true
  /\ (issued KEnrollmentStatus
        (trace_of (fetchCourseAndStatus (Some "c1") statusUnauthorized initialState)) = true
      /\ settled (status_answer statusUnauthorized) = Rejected unauthorized
      /\ navigations
           (trace_of (fetchCourseAndStatus (Some "c1") statusUnauthorized initialState)) = [])
  /\ (issued KPaymentProofStatus
        (trace_of (fetchCourseAndStatus (Some "c1") laterUnauthorized initialState)) = true
      /\ payment_answer laterUnauthorized = Rejected unauthorized
      /\ issued KMembership
           (trace_of (fetchCourseAndStatus (Some "c1") laterUnauthorized initialState)) = true
      /\ settled (membership_answer laterUnauthorized) = Rejected unauthorized
      /\ navigations
           (trace_of (fetchCourseAndStatus (Some "c1") laterUnauthorized initialState)) = []).
Proof. repeat split. Qed.

Lemma course_failure_redirect_or_error_witness :
  (navigations (trace_of (fetchCourseAndStatus (Some "c1") courseUnauthorized initialState))
   = ["/login"]
   /\ error (state_of (fetchCourseAndStatus (Some "c1") courseUnauthorized initialState))
      = error initialState)
  /\ (error (state_of (fetchCourseAndStatus (Some "c1") courseBroken initialState))
      = Some "Failed to load course details. Please try again later."
      /\ navigations (trace_of (fetchCourseAndStatus (Some "c1") courseBroken initialState))
         = []).
Proof.
  split.
  - exact (course_failure_redirect_or_error (Some "c1") courseUnauthorized initialState
             unauthorized eq_refl eq_refl).
  - exact (course_failure_redirect_or_error (Some "c1") courseBroken initialState
             serverError eq_refl eq_refl).
Defined.

(** C4 as stated fails: a form without first name and a form without last
    name are rejected with the very same reason, and without a course id an
    incomplete form is dropped with no reason at all. *)
Lemma rejection_reason_not_per_field :
  (first_name noFirstName = EmptyString /\ last_name noFirstName <> EmptyString)
  /\ (first_name noLastName <> EmptyString /\ last_name noLastName = EmptyString)
  /\ toasts (trace_of (handleFormSubmit (Some "c1") noFirstName (ok_response tt) initialState))
     = [(ToastError, "Please fill in all required fields.")]
  /\ toasts (trace_of (handleFormSubmit (Some "c1") noLastName (ok_response tt) initialState))
     = [(ToastError, "Please fill in all required fields.")]
  /\ toasts (trace_of (handleFormSubmit None noFirstName (ok_response tt) initialState))
     = [].
Proof. repeat split; discriminate. Qed.

Lemma incomplete_form_rejected_locally_witness :
  requests (trace_of (handleFormSubmit (Some "c1") noCertificate (ok_response tt) initialState))
  = []
  /\ state_of (handleFormSubmit (Some "c1") noCertificate (ok_response tt) initialState)
     = initialState
  /\ toasts (trace_of (handleFormSubmit (Some "c1") noCertificate (ok_response tt) initialState))
     = [(ToastError, "Please upload your qualification certificate.")].
Proof.
  apply (incomplete_form_rejected_locally (Some "c1") noCertificate (ok_response tt)
           initialState).
  do 5 right. reflexivity.
Defined.

Lemma payment_proof_upload_success_witness :
  paymentSubmitted
    (state_of (handlePaymentProofSubmit (Some "c1") (Some receipt) uploadApproved paymentStaged))
  = true
  /\ paymentPending
       (state_of (handlePaymentProofSubmit (Some "c1") (Some receipt) uploadApproved paymentStaged))
     = true
  /\ showPaymentForm
       (state_of (handlePaymentProofSubmit (Some "c1") (Some receipt) uploadApproved paymentStaged))
     = false
  /\ paymentFile
       (state_of (handlePaymentProofSubmit (Some "c1") (Some receipt) uploadApproved paymentStaged))
     = None
  /\ toasts
       (trace_of (handlePaymentProofSubmit (Some "c1") (Some receipt) uploadApproved paymentStaged))
     = [(ToastSuccess, "Payment proof submitted successfully!")]
  /\ console ConsoleWarn
       (trace_of (handlePaymentProofSubmit (Some "c1") (Some receipt) uploadApproved paymentStaged))
     = ["Payment status not returned as pending in POST response. Optimistically updating UI."].
Proof.
  apply (payment_proof_upload_success (Some "c1") (Some receipt) uploadApproved
           {| ppd_status := Some "approved"; ppd_message := None |} paymentStaged).
  - reflexivity.
  - reflexivity.
Defined.

Lemma toggle_watched_copies_agree_witness :
  In (with_watched true lesson1)
     (videos (state_of (handleVideoToggleWatched lesson1 (ok_response tt) watching)))
  /\ selectedVideo (state_of (handleVideoToggleWatched lesson1 (ok_response tt) watching))
     = Some (with_watched true lesson1)
  /\ videos (state_of (handleVideoToggleWatched lesson1 (Rejected serverError) watching))
     = videos watching
  /\ selectedVideo (state_of (handleVideoToggleWatched lesson1 (Rejected serverError) watching))
     = selectedVideo watching.
Proof.
  assert (Hin : In lesson1 (videos watching)) by (left; reflexivity).
  pose proof (toggle_watched_copies_agree lesson1 (ok_response tt) watching Hin)
    as (Hentry & _ & Hsel & _).
  pose proof (toggle_watched_copies_agree lesson1 (Rejected serverError) watching Hin)
    as (Hlist & Hsame).
  split; [exact Hentry|].
  split; [exact (Hsel lesson1 eq_refl eq_refl)|].
  split; [exact Hlist|exact Hsame].
Defined.

Lemma payment_check_only_when_approved_witness :
  issued KPaymentProofStatus
    (trace_of (fetchCourseAndStatus (Some "c1") pendingButEnrolled initialState)) = false.
Proof.
  apply (payment_check_only_when_approved (Some "c1") pendingButEnrolled initialState).
  discriminate.
Defined.

Lemma status_failure_degrades_witness :
  error (state_of (fetchCourseAndStatus (Some "c1") statusBroken initialState)) = None
  /\ issued KMembership (trace_of (fetchCourseAndStatus (Some "c1") statusBroken initialState))
     = true
  /\ issued KPaymentProofStatus
       (trace_of (fetchCourseAndStatus (Some "c1") statusBroken initialState)) = false
  /\ applicationStatus (state_of (fetchCourseAndStatus (Some "c1") statusBroken initialState))
     = Some NOT_APPLIED.
Proof.
  destruct (status_failure_degrades "c1" statusBroken initialState serverError
              eq_refl eq_refl) as (_ & _ & _ & Hgo & _).
  exact (Hgo sampleCourse eq_refl).
Defined.

Lemma approved_without_proof_not_enrolled_witness :
  applicationStatus (state_of (fetchCourseAndStatus (Some "c1") approvedNoProof initialState))
  = Some APPROVED
  /\ paymentSubmitted (state_of (fetchCourseAndStatus (Some "c1") approvedNoProof initialState))
     = false
  /\ paymentPending (state_of (fetchCourseAndStatus (Some "c1") approvedNoProof initialState))
     = false
  /\ isEnrolled (state_of (fetchCourseAndStatus (Some "c1") approvedNoProof initialState))
     = false.
Proof.
  apply (approved_without_proof_not_enrolled (Some "c1") approvedNoProof initialState notFound);
    reflexivity.
Defined.

Lemma payment_submit_without_file_is_noop_witness :
  result_of (handlePaymentProofSubmit (Some "c1") None uploadApproved initialState)
  = Resolved tt
  /\ state_of (handlePaymentProofSubmit (Some "c1") None uploadApproved initialState)
     = initialState
  /\ requests (trace_of (handlePaymentProofSubmit (Some "c1") None uploadApproved initialState))
     = []
  /\ toasts (trace_of (handlePaymentProofSubmit (Some "c1") None uploadApproved initialState))
     = []
  /\ navigations (trace_of (handlePaymentProofSubmit (Some "c1") None uploadApproved initialState))
     = []
  /\ console ConsoleLog
       (trace_of (handlePaymentProofSubmit (Some "c1") None uploadApproved initialState))
     ++ console ConsoleWarn
          (trace_of (handlePaymentProofSubmit (Some "c1") None uploadApproved initialState))
     ++ console ConsoleError
          (trace_of (handlePaymentProofSubmit (Some "c1") None uploadApproved initialState))
     = [].
Proof.
  apply (payment_submit_without_file_is_noop (Some "c1") None uploadApproved initialState).
  left. reflexivity.
Defined.

(** * Further properties of the reconciler *)

Section ReconcilerMore.

Variable courseId : option string.
Variable b : Backend.
Variable s : State.

Local Abbreviation run := (fetchCourseAndStatus courseId b s).

(** The three exits, as one case analysis. *)
Lemma reconcile_exits :
  (truthy courseId = None
   /\ run = (Resolved tt,
             upd_isLoading false (upd_error (Some "Course ID is missing.") s), []))
  \/ (exists cid e,
        truthy courseId = Some cid /\ settled (course_answer b) = Rejected e
        /\ result_of run = Resolved tt
        /\ state_of run = course_failure_state s e)
  \/ (exists cid ci,
        truthy courseId = Some cid /\ settled (course_answer b) = Resolved ci
        /\ result_of run = Resolved tt
        /\ state_of run = published b s cid ci).
Proof.
  destruct (truthy courseId) as [cid|] eqn:Hc.
  - destruct (settled (course_answer b)) as [ci|e] eqn:Hs.
    + right. right. exists cid, ci.
      destruct (reconcile_course_ok courseId b s cid ci Hc Hs) as (? & ? & _). auto.
    + right. left. exists cid, e.
      destruct (reconcile_course_failed courseId b s cid e Hc Hs) as (? & ? & _). auto.
  - left. split; [reflexivity|]. now apply reconcile_no_course_id.
Qed.

(** X1.  Whatever the backend answers, no exception leaves the reconciler
    and the loading flag is off when it ends. *)
Theorem reconciler_always_settles :
  result_of run = Resolved tt /\ isLoading (state_of run) = false.
Proof.
  destruct reconcile_exits
    as [(_ & ->) | [(cid & e & _ & _ & -> & ->) | (cid & ci & _ & _ & -> & ->)]].
  - auto.
  - auto.
  - split; [reflexivity|].
    now destruct (published_fields b s cid ci) as (_ & _ & -> & _).
Qed.

(** X2.  The requests of a run, in order: none without a course id;
    otherwise the course and enrollment-status requests, and, only when the
    course fetch succeeded, the payment-proof-status request if the resolved
    status is [APPROVED], then the membership request. *)
Theorem reconciler_request_schedule :
  requests (trace_of run)
  = match truthy courseId with
    | None => []
    | Some cid =>
        ExploreCourse cid :: EnrollmentStatus cid
        :: match settled (course_answer b) with
           | Rejected _ => []
           | Resolved _ =>
               match resolvedStatus b with
               | APPROVED => [PaymentProofStatus cid; MyCourses]
               | _ => [MyCourses]
               end
           end
    end.
Proof.
  rewrite reconcile_requests.
  destruct (truthy courseId); [|reflexivity].
  destruct (settled (course_answer b)); [|reflexivity].
  now destruct (resolvedStatus b).
Qed.

(** The payment-proof cells a run leaves. *)
Lemma reconcile_payment_cells :
  (paymentSubmitted (state_of run), paymentPending (state_of run))
  = if issued KPaymentProofStatus (trace_of run)
    then paymentProofFlags b (paymentSubmitted s, paymentPending s)
    else (paymentSubmitted s, paymentPending s).
Proof.
  unfold issued. rewrite reconcile_requests.
  destruct reconcile_exits
    as [(Hc & ->) | [(cid & e & Hc & Hs & _ & ->) | (cid & ci & Hc & Hs & _ & ->)]];
    rewrite Hc; try rewrite Hs.
  - reflexivity.
  - unfold course_failure_state. now destruct (instanceof_UnauthorizedError e).
  - destruct (published_fields b s cid ci) as (_ & _ & _ & _ & _ & ->).
    now destruct (resolvedStatus b).
Qed.

(** X3.  When the payment-proof-status request was sent and answered with a
    successful response whose body has status ["pending"], both
    payment-proof cells are true after the run. *)
Theorem payment_pending_sets_cells (r : Response PaymentStatusData) (d : PaymentStatusData) :
  issued KPaymentProofStatus (trace_of run) = true ->
  payment_answer b = Resolved r ->
  resp_ok r = true ->
  resp_handled r = Resolved d ->
  psd_status d = "pending" ->
  paymentSubmitted (state_of run) = true /\ paymentPending (state_of run) = true.
Proof.
  intros Hsent Hr Hok Hd Hp.
  pose proof reconcile_payment_cells as H. rewrite Hsent in H.
  unfold paymentProofFlags in H. rewrite Hr, Hok, Hd, Hp in H.
  apply pair_equal_spec in H. exact H.
Qed.

(** X4.  When the payment-proof-status request was sent and its promise
    rejected, or a successful response was refused by the response helper,
    both payment-proof cells are false after the run. *)
Theorem payment_check_failure_clears_cells (e : Thrown) :
  issued KPaymentProofStatus (trace_of run) = true ->
  payment_answer b = Rejected e
  \/ (exists r, payment_answer b = Resolved r /\ resp_ok r = true
                /\ resp_handled r = Rejected e) ->
  paymentSubmitted (state_of run) = false /\ paymentPending (state_of run) = false.
Proof.
  intros Hsent Hfail.
  pose proof reconcile_payment_cells as H. rewrite Hsent in H.
  unfold paymentProofFlags in H.
  destruct Hfail as [Hr | (r & Hr & Hok & Hd)];
    rewrite Hr, ?Hok, ?Hd in H; apply pair_equal_spec in H; exact H.
Qed.

(** X5.  The payment-proof cells keep the values they had before the run
    when the payment-proof-status request was not sent, when it was answered
    with an error status other than 404, and when it was answered with a
    successful response whose status is not ["pending"]. *)
Theorem payment_cells_kept :
  issued KPaymentProofStatus (trace_of run) = false
  \/ (exists r, payment_answer b = Resolved r /\ resp_ok r = false
                /\ resp_status r <> 404)
  \/ (exists r d, payment_answer b = Resolved r /\ resp_ok r = true
                  /\ resp_handled r = Resolved d /\ psd_status d <> "pending") ->
  paymentSubmitted (state_of run) = paymentSubmitted s
  /\ paymentPending (state_of run) = paymentPending s.
Proof.
  intros Hkeep. apply pair_equal_spec.
  rewrite reconcile_payment_cells.
  destruct Hkeep as [-> | [(r & Hr & Hok & Hst) | (r & d & Hr & Hok & Hd & Hst)]];
    [reflexivity| |];
    destruct (issued KPaymentProofStatus (trace_of run)); try reflexivity;
    unfold paymentProofFlags; rewrite Hr, Hok.
  - apply Z.eqb_neq in Hst. now rewrite Hst.
  - rewrite Hd. apply String.eqb_neq in Hst. now rewrite Hst.
Qed.

(** X6.  When the membership request was sent and failed, the enrollment
    flag keeps the value it had before the run, the application status is
    the resolved one, the page-level error is left as it was and nothing
    navigates. *)
Theorem membership_failure_keeps_flag (e : Thrown) :
  issued KMembership (trace_of run) = true ->
  settled (membership_answer b) = Rejected e ->
  isEnrolled (state_of run) = isEnrolled s
  /\ applicationStatus (state_of run) = Some (resolvedStatus b)
  /\ error (state_of run) = error s
  /\ navigations (trace_of run) = [].
Proof.
  intros Hsent He.
  destruct (membership_issued_inv courseId b s Hsent) as (cid & ci & Hc & Hci).
  destruct (reconcile_course_ok courseId b s cid ci Hc Hci) as (_ & -> & _ & ->).
  destruct (published_fields b s cid ci) as (_ & -> & _ & -> & -> & _).
  now rewrite He.
Qed.

(** X7.  On a page whose enrollment flag is off, a run that turns it on
    leaves the application status [APPROVED]. *)
Theorem enrolled_implies_approved :
  isEnrolled s = false ->
  isEnrolled (state_of run) = true ->
  applicationStatus (state_of run) = Some APPROVED.
Proof.
  intros Hoff.
  destruct reconcile_exits
    as [(_ & ->) | [(cid & e & _ & _ & _ & ->) | (cid & ci & _ & _ & _ & ->)]].
  - cbn. congruence.
  - unfold course_failure_state.
    destruct (instanceof_UnauthorizedError e); cbn; congruence.
  - destruct (published_fields b s cid ci) as (_ & _ & _ & -> & -> & _).
    destruct (settled (membership_answer b)) as [l|e]; [|congruence].
    now intros ->.
Qed.

(** X8.  The reconciler never clears the page-level error: on a page that
    shows an error, every run ends on the error page again, and a run whose
    course fetch succeeds still shows the old message. *)
Theorem error_page_is_sticky (m : string) :
  truthy (error s) = Some m ->
  (exists m', render (state_of run) = ErrorView m')
  /\ (forall cid ci,
        truthy courseId = Some cid ->
        settled (course_answer b) = Resolved ci ->
        render (state_of run) = ErrorView m).
Proof.
  intros Hm.
  destruct reconcile_exits
    as [(Hc & ->) | [(cid & e & Hc & Hs & _ & ->) | (cid & ci & Hc & Hs & _ & ->)]].
  - split; [eexists; reflexivity|]. intros cid ci Hc'. congruence.
  - split; [|intros cid' ci _ Hs'; congruence].
    unfold course_failure_state, render.
    destruct (instanceof_UnauthorizedError e); cbn.
    + rewrite Hm. eauto.
    + eauto.
  - assert (H : render (published b s cid ci) = ErrorView m).
    { unfold render.
      destruct (published_fields b s cid ci) as (_ & -> & -> & _).
      now rewrite Hm. }
    split; [eauto|]. intros _ _ _ _. exact H.
Qed.

(** X9.  When the membership request was sent and succeeded with a list that
    holds the course, the course page has the video section and none of the
    panels that depend on the application status. *)
Theorem enrolled_page_shows_videos (cid : string) (l : list EnrolledCourse) :
  courseId = Some cid ->
  issued KMembership (trace_of run) = true ->
  settled (membership_answer b) = Resolved l ->
  lists_course cid l = true ->
  filter is_status_panel (panels (state_of run)) = []
  /\ In (VideoSection (videoArea (state_of run))) (panels (state_of run)).
Proof.
  intros Hid Hsent Hl Hlists.
  destruct (membership_issued_inv courseId b s Hsent) as (cid' & ci & Hc & Hci).
  assert (cid' = cid) as -> by (apply truthy_Some in Hc; congruence).
  destruct (reconcile_course_ok courseId b s cid ci Hc Hci) as (_ & -> & _).
  destruct (published_fields b s cid ci) as (_ & _ & _ & Happ & Henr & _).
  rewrite Hl, Hlists in Happ, Henr.
  unfold panels, status_is. rewrite Happ, Henr. cbn.
  destruct (paymentSubmitted _ || paymentPending _); cbn; auto.
Qed.

(** X10.  When the resolved status is [APPROVED], the payment-proof-status
    request was answered 404 and the membership list came back without the
    course, a page whose payment form is closed shows the approval panel
    with the payment button, and nothing else. *)
Theorem approved_page_offers_payment (cid : string) (r : Response PaymentStatusData)
    (l : list EnrolledCourse) :
  courseId = Some cid ->
  issued KPaymentProofStatus (trace_of run) = true ->
  payment_answer b = Resolved r ->
  resp_status r = 404 ->
  settled (membership_answer b) = Resolved l ->
  lists_course cid l = false ->
  showPaymentForm s = false ->
  panels (state_of run) = [ApprovedPanel].
Proof.
  intros Hid Hsent Hr H404 Hl Hlists Hform.
  pose proof reconcile_payment_cells as Hpay. rewrite Hsent in Hpay.
  rewrite (paymentProofFlags_404 b r _ Hr H404) in Hpay.
  apply pair_equal_spec in Hpay. destruct Hpay as [Hsub Hpen].
  unfold panels, status_is. rewrite Hsub, Hpen.
  destruct (payment_issued_inv courseId b s Hsent) as (Happ & cid' & ci & Hc & Hci).
  assert (cid' = cid) as -> by (apply truthy_Some in Hc; congruence).
  destruct (reconcile_course_ok courseId b s cid ci Hc Hci) as (_ & -> & _).
  destruct (published_fields b s cid ci) as (_ & _ & _ & -> & -> & _).
  rewrite Hl, Hlists, Happ.
  assert (Hshow : showPaymentForm (published b s cid ci) = showPaymentForm s).
  { unfold published, enrolled_state. rewrite Hl, Hlists, Happ. reflexivity. }
  rewrite Hshow, Hform. reflexivity.
Qed.

End ReconcilerMore.

(** * The rendered page and the reachable states *)

Ltac unfold_page :=
  cbv [step perform fetchVideos handleInputChange handleFileChange
       handlePaymentFileChange fetchPurchaseInfo handleShowPaymentForm
       cancelEnrollmentForm cancelPaymentForm backToCourses
       setIsLoadingVideos setVideos setPurchaseInfo setIsLoadingPurchaseInfo];
  unfold_run.

Ltac case_scrutinee :=
  match goal with
  | |- context [match ?x with _ => _ end] =>
      lazymatch x with
      | context [match _ with _ => _ end] => fail
      | _ => destruct x eqn:?
      end
  end.

(** X11.  Of the six panels that depend on the application status (enroll
    button, application form, pending, approved, payment form, rejected),
    at most one is on the page. *)
Theorem status_panels_exclusive (s : State) :
  (length (filter is_status_panel (panels s)) <= 1)%nat.
Proof.
  unfold panels, status_is, when.
  destruct (applicationStatus s) as [[| | |]|], (showEnrollmentForm s),
    (isEnrolled s), (showPaymentForm s), (paymentSubmitted s), (paymentPending s);
    cbn; lia.
Qed.

(** Every action leaves the two payment-proof cells both true, both false,
    or as they were. *)
Lemma step_payment_cells (a : Action) (s : State) :
  let after := (paymentSubmitted (step a s), paymentPending (step a s)) in
  after = (true, true) \/ after = (false, false)
  \/ after = (paymentSubmitted s, paymentPending s).
Proof.
  destruct a; cbn zeta.
  1: { unfold step, perform. rewrite reconcile_payment_cells.
       destruct (issued _ _); [|auto]. unfold paymentProofFlags.
       repeat case_scrutinee; auto. }
  all: unfold_page; repeat case_scrutinee; cbn; auto.
Qed.

Lemma reachable_payment_cells (s : State) :
  reachable s -> paymentSubmitted s = paymentPending s.
Proof.
  induction 1 as [|a s Hs IH Hoff]; [reflexivity|].
  destruct (step_payment_cells a s) as [H | [H | H]];
    apply pair_equal_spec in H; destruct H as [-> ->]; auto.
Qed.

(** X12.  In every reachable state the two payment-proof cells are equal,
    so that the "payment proof submitted" panel is never on the page
    together with the approval panel or the payment form. *)
Theorem submitted_panel_excludes_payment_prompts (s : State) :
  reachable s ->
  paymentSubmitted s = paymentPending s
  /\ (In PaymentSubmittedPanel (panels s) ->
      ~ In ApprovedPanel (panels s) /\ ~ In PaymentFormPanel (panels s)).
Proof.
  intros Hs. apply reachable_payment_cells in Hs. split; [exact Hs|].
  unfold panels, status_is, when. rewrite <- Hs.
  destruct (applicationStatus s) as [[| | |]|], (showEnrollmentForm s),
    (isEnrolled s), (showPaymentForm s), (paymentSubmitted s);
    cbn; intuition discriminate.
Qed.

(** * Further properties of the forms *)

(** X13.  A complete form with a course id sends exactly one request, which
    carries the form and its certificate; when it succeeds the application
    status becomes [PENDING], the form is closed, the submitting flag is off
    and one success notification is shown. *)
Theorem application_submit_success (courseId : option string) (cid : string)
    (form : EnrollmentFormData) (file : File) (answer : Outcome (Response unit))
    (u : unit) (s : State) :
  truthy courseId = Some cid ->
  text_field_empty form = false ->
  qualification_certificate form = Some file ->
  settled answer = Resolved u ->
  let r := handleFormSubmit courseId form answer s in
  requests (trace_of r) = [Apply cid form file]
  /\ state_of r
     = upd_isSubmitting false
         (upd_showEnrollmentForm false (upd_applicationStatus (Some PENDING) s))
  /\ toasts (trace_of r)
     = [(ToastSuccess, "Enrollment application submitted successfully!")].
Proof.
  intros Hc Htext Hfile Hok r. subst r. unfold handleFormSubmit.
  rewrite Hc. fold (text_field_empty form). rewrite Htext, Hfile.
  unfold settled in Hok. destruct answer as [response|e]; [|discriminate].
  unfold_run. rewrite Hok. cbn. auto.
Qed.

(** X14.  When the request of a complete form fails, every cell is as
    before, but for the submitting flag, which is off: the application status
    is untouched and the form stays open with its content.  One error
    notification is shown; it ends with the message of the error when the
    thrown value is an [Error]. *)
Theorem application_submit_failure (courseId : option string) (cid : string)
    (form : EnrollmentFormData) (file : File) (answer : Outcome (Response unit))
    (e : Thrown) (s : State) :
  truthy courseId = Some cid ->
  text_field_empty form = false ->
  qualification_certificate form = Some file ->
  settled answer = Rejected e ->
  let r := handleFormSubmit courseId form answer s in
  result_of r = Resolved tt
  /\ requests (trace_of r) = [Apply cid form file]
  /\ state_of r = upd_isSubmitting false s
  /\ toasts (trace_of r) = [(ToastError, application_failure_text e)].
Proof.
  intros Hc Htext Hfile Hfail r. subst r.
  unfold handleFormSubmit, application_failure_text.
  rewrite Hc. fold (text_field_empty form). rewrite Htext, Hfile.
  unfold settled in Hfail. unfold_run.
  destruct answer as [response|e0]; [rewrite Hfail|injection Hfail as ->];
    destruct e as [unauth message|]; cbn; auto.
Qed.

(** X15.  When the upload of a staged payment proof fails, every cell is as
    before, but for the submitting flag, which is off: the file stays
    staged, the form stays open and the payment-proof cells are untouched.
    One error notification is shown. *)
Theorem payment_submit_failure (courseId : option string) (cid : string)
    (file : File) (answer : Outcome (Response (option PaymentProofData))) (e : Thrown)
    (s : State) :
  truthy courseId = Some cid ->
  settled answer = Rejected e ->
  let r := handlePaymentProofSubmit courseId (Some file) answer s in
  result_of r = Resolved tt
  /\ requests (trace_of r) = [PaymentProof cid file]
  /\ state_of r = upd_isSubmittingPayment false s
  /\ toasts (trace_of r) = [(ToastError, "Failed to submit payment proof.")].
Proof.
  intros Hc Hfail r. subst r. unfold handlePaymentProofSubmit. rewrite Hc.
  unfold settled in Hfail. unfold_run.
  destruct answer as [response|e0]; [rewrite Hfail|]; cbn; auto.
Qed.

(** X16.  Typing [value] into a text input stores it under the key of the
    input and changes no other entry of the form, nor any other cell. *)
Theorem input_change_updates_one_field (field : TextField) (value : string) (s : State) :
  let s' := state_of (handleInputChange (TextChange field value) s) in
  text_of field (enrollmentForm s') = value
  /\ (forall other, other <> field ->
        text_of other (enrollmentForm s') = text_of other (enrollmentForm s))
  /\ qualification_certificate (enrollmentForm s')
     = qualification_certificate (enrollmentForm s)
  /\ s' = upd_enrollmentForm (enrollmentForm s') s.
Proof.
  cbn zeta. split; [|split; [|split]].
  - now destruct field.
  - intros other Hne. destruct field, other; try reflexivity; congruence.
  - now destruct field.
  - reflexivity.
Qed.

(** X17.  After the five inputs were filled with non-empty texts, in any
    state of the form before, and a file was chosen, submitting with a
    course id sends the application with exactly these texts and the first
    chosen file. *)
Theorem filled_form_is_sent (cid : string) (form : EnrollmentFormData)
    (file : File) (more : list File) (answer : Outcome (Response unit)) (s : State) :
  cid <> EmptyString ->
  text_field_empty form = false ->
  let s' := typed (fill form) (Some (file :: more)) s in
  requests (trace_of (handleFormSubmit (Some cid) (enrollmentForm s') answer s'))
  = [Apply cid (with_field (CertificateChange (Some file)) form)
       file].
Proof.
  intros Hcid Htext s'. subst s'.
  assert (Hform : enrollmentForm (typed (fill form) (Some (file :: more)) s)
                  = with_field (CertificateChange (Some file)) form) by reflexivity.
  rewrite Hform. unfold handleFormSubmit.
  assert (Hc : truthy (Some cid) = Some cid) by (destruct cid; [contradiction|reflexivity]).
  rewrite Hc.
  change (is_empty (first_name (with_field (CertificateChange (Some file)) form))
          || is_empty (last_name (with_field (CertificateChange (Some file)) form))
          || is_empty (qualification (with_field (CertificateChange (Some file)) form))
          || is_empty (ultrasound_experience (with_field (CertificateChange (Some file)) form))
          || is_empty (contact_number (with_field (CertificateChange (Some file)) form)))
    with (text_field_empty form).
  rewrite Htext. cbn [with_field qualification_certificate].
  unfold_run. destruct answer as [[code [u|[unauth message|]]]|[unauth message|]]; reflexivity.
Qed.

Lemma file_choice_keeps_form (files : option (list File)) (s : State) :
  let s' := state_of (handleFileChange files s) in
  (forall k, text_of k (enrollmentForm s') = text_of k (enrollmentForm s))
  /\ (forall f, qualification_certificate (enrollmentForm s) = Some f ->
        exists f', qualification_certificate (enrollmentForm s') = Some f').
Proof.
  cbn zeta. unfold handleFileChange.
  destruct (first_file files) as [file|]; cbn.
  - split; [now intros []|eauto].
  - split; [reflexivity|eauto].
Qed.

(** X18.  The file input never detaches a certificate: after any sequence
    of file choices, among them choices that report no file, a certificate
    attached before is still attached (it or a later one), and the five
    texts of the form are what they were. *)
Theorem certificate_stays_attached (choices : list (option (list File)))
    (s : State) (f : File) :
  qualification_certificate (enrollmentForm s) = Some f ->
  (exists f', qualification_certificate (enrollmentForm (chosen choices s)) = Some f')
  /\ (forall k, text_of k (enrollmentForm (chosen choices s))
                = text_of k (enrollmentForm s)).
Proof.
  revert s f. unfold chosen.
  induction choices as [|files rest IH]; intros s f Hf; cbn [fold_left].
  - eauto.
  - destruct (file_choice_keeps_form files s) as (Htexts & Hkeep).
    destruct (Hkeep f Hf) as (f1 & Hf1).
    destruct (IH _ f1 Hf1) as (Hattached & Hsame).
    split; [exact Hattached|].
    intros k. now rewrite Hsame, Htexts.
Qed.

(** X19.  Opening the payment form always ends with the form shown and
    never throws.  The purchase information is requested only when none is
    cached and there is a course id; a failed request leaves the cache
    empty, shows one error notification and still opens the form. *)
Theorem show_payment_form_always_opens (courseId : option string)
    (cached : option PurchaseInfo) (answer : Outcome (Response PurchaseInfo)) (s : State) :
  let r := handleShowPaymentForm courseId cached answer s in
  result_of r = Resolved tt
  /\ showPaymentForm (state_of r) = true
  /\ isLoadingPurchaseInfo (state_of r)
     = match cached, truthy courseId with
       | None, Some _ => false
       | _, _ => isLoadingPurchaseInfo s
       end
  /\ requests (trace_of r)
     = match cached, truthy courseId with
       | None, Some cid => [PurchaseInfoOf cid]
       | _, _ => []
       end
  /\ purchaseInfo (state_of r)
     = match cached, truthy courseId, settled answer with
       | None, Some _, Resolved data => Some data
       | _, _, _ => purchaseInfo s
       end
  /\ toasts (trace_of r)
     = match cached, truthy courseId, settled answer with
       | None, Some _, Rejected _ => [(ToastError, "Failed to load payment information.")]
       | _, _, _ => []
       end.
Proof.
  cbn zeta. unfold handleShowPaymentForm, fetchPurchaseInfo.
  destruct cached as [info|]; [cbn; auto 10|].
  destruct (truthy courseId) as [cid|]; [|cbn; auto 10].
  unfold_page. destruct answer as [[code [data|e]]|e]; cbn; auto 10.
Qed.

(** * Further properties of the videos *)

(** X20.  Without a course id, or while the user is not enrolled, the video
    effect sends nothing and changes nothing. *)
Theorem fetch_videos_needs_enrollment (courseId : option string) (enrolled : bool)
    (answer : Outcome (Response (list Video))) (s : State) :
  truthy courseId = None \/ enrolled = false ->
  fetchVideos courseId enrolled answer s = (Resolved tt, s, []).
Proof.
  intros [Hc | ->]; unfold fetchVideos.
  - now rewrite Hc.
  - now destruct (truthy courseId).
Qed.

(** X21.  When the video request succeeds, the list becomes the answer and
    the first video of a non-empty answer is selected; an empty answer
    leaves the selection as it was.  The loading flag is off, and nothing is
    notified. *)
Theorem fetch_videos_success (courseId : option string) (cid : string)
    (answer : Outcome (Response (list Video))) (data : list Video) (s : State) :
  truthy courseId = Some cid ->
  settled answer = Resolved data ->
  let r := fetchVideos courseId true answer s in
  requests (trace_of r) = [VideosWithCheckpoint cid]
  /\ videos (state_of r) = data
  /\ selectedVideo (state_of r)
     = match data with
       | first :: _ => Some first
       | [] => selectedVideo s
       end
  /\ isLoadingVideos (state_of r) = false
  /\ toasts (trace_of r) = [].
Proof.
  intros Hc Hok r. subst r. unfold fetchVideos. rewrite Hc.
  unfold settled in Hok. destruct answer as [response|e]; [|discriminate].
  unfold_page. rewrite Hok. destruct data; cbn; auto.
Qed.

(** X22.  When the video request fails, the list and the selection are what
    they were, the loading flag is off, one error notification is shown and
    no exception leaves the effect. *)
Theorem fetch_videos_failure (courseId : option string) (cid : string)
    (answer : Outcome (Response (list Video))) (e : Thrown) (s : State) :
  truthy courseId = Some cid ->
  settled answer = Rejected e ->
  let r := fetchVideos courseId true answer s in
  result_of r = Resolved tt
  /\ state_of r = upd_isLoadingVideos false s
  /\ toasts (trace_of r) = [(ToastError, "Failed to load course videos.")].
Proof.
  intros Hc Hfail r. subst r. unfold fetchVideos. rewrite Hc.
  unfold settled in Hfail. unfold_page.
  destruct answer as [response|e0]; [rewrite Hfail|]; cbn; auto.
Qed.

(** The list and the selection after the video effect. *)
Lemma fetchVideos_cells (courseId : option string) (enrolled : bool)
    (answer : Outcome (Response (list Video))) (s : State) :
  let s' := state_of (fetchVideos courseId enrolled answer s) in
  (videos s', selectedVideo s')
  = match truthy courseId, enrolled, settled answer with
    | Some _, true, Resolved [] => ([], selectedVideo s)
    | Some _, true, Resolved (first :: rest) => (first :: rest, Some first)
    | _, _, _ => (videos s, selectedVideo s)
    end.
Proof.
  cbn zeta. unfold fetchVideos.
  destruct (truthy courseId) as [cid|]; [|reflexivity].
  destruct enrolled; [|reflexivity].
  unfold_page. destruct answer as [[code [[|first rest]|e]]|e]; reflexivity.
Qed.

Lemma mark_selected_listed (video : Video) (w : bool) (l : list Video) (p p' : Video) :
  In p l ->
  mark_selected video w (Some p) = Some p' ->
  In p' (mark_in_list video w l).
Proof.
  intros Hin Hp'. unfold mark_in_list. apply in_map_iff. exists p.
  split; [|exact Hin]. cbn in Hp'.
  destruct (id p =? id video)%string; congruence.
Qed.

Lemma mark_in_list_nil (video : Video) (w : bool) (l : list Video) :
  mark_in_list video w l <> [] -> l <> [].
Proof. now destruct l. Qed.

Lemma mark_keeps_selection_listed (video : Video) (w : bool) (l : list Video)
    (sel : option Video) :
  (l <> [] -> forall p, sel = Some p -> In p l) ->
  mark_in_list video w l <> [] ->
  forall p', mark_selected video w sel = Some p' -> In p' (mark_in_list video w l).
Proof.
  intros Hl Hne p' Hp'. apply mark_in_list_nil in Hne.
  destruct sel as [p|]; [|discriminate].
  eapply mark_selected_listed; [|exact Hp']. now apply Hl.
Qed.

(** Every offered action keeps the selection in the list. *)
Lemma step_selection_listed (a : Action) (s : State) :
  offered a s -> selection_listed s -> selection_listed (step a s).
Proof.
  unfold selection_listed. intros Hoff Hs.
  destruct a; cbn in Hoff.
  1: { (* the reconciler touches neither cell *)
       unfold step, perform.
       destruct (reconcile_exits courseId b s)
         as [(_ & ->) | [(cid & e & _ & _ & _ & ->) | (cid & ci & _ & _ & _ & ->)]].
       - exact Hs.
       - unfold course_failure_state.
         destruct (instanceof_UnauthorizedError e); exact Hs.
       - unfold published, enrolled_state.
         repeat case_scrutinee; exact Hs. }
  1: { (* the video effect *)
       unfold step, perform.
       pose proof (fetchVideos_cells courseId (isEnrolled s) answer s) as H.
       cbn zeta in H.
       destruct (truthy courseId) as [cid|];
         [destruct (isEnrolled s);
          [destruct (settled answer) as [[|first rest]|e]|]|];
         apply pair_equal_spec in H; destruct H as [Hv Hsel];
         rewrite Hv, Hsel; try exact Hs.
       - congruence.
       - intros _ p [= <-]. now left. }
  10: { (* selecting a lesson of the list *)
        intros _ p [= <-]. exact Hoff. }
  10: { (* playing *)
        unfold step, perform, handleVideoPlay.
        destruct (negb (watched video)); [|exact Hs].
        destruct answer as [response|e]; [|exact Hs].
        cbn. now apply mark_keeps_selection_listed. }
  10: { (* toggling *)
        unfold step, perform. rewrite toggle_state.
        destruct answer as [response|e]; [|exact Hs].
        cbn. now apply mark_keeps_selection_listed. }
  all: unfold_page; repeat case_scrutinee; exact Hs.
Qed.

(** X23.  In every reachable state with a non-empty list, the selected
    video, when there is one, is a lesson of the list: the player and the
    list show the same record. *)
Theorem selected_video_is_listed (s : State) :
  reachable s -> selection_listed s.
Proof.
  induction 1 as [|a s Hs IH Hoff].
  - intros _ p Hp. discriminate.
  - now apply step_selection_listed.
Qed.

(** X24.  Playing a watched video sends nothing and changes nothing;
    playing an unwatched one sends one completion request.  In both cases
    the lessons keep their ids and no watched flag is turned off. *)
Theorem play_never_unwatches (video : Video) (answer : Outcome (Response unit))
    (s : State) :
  let r := handleVideoPlay video answer s in
  requests (trace_of r)
  = (if watched video then [] else [VideoComplete (id video)])
  /\ (watched video = true -> state_of r = s)
  /\ Forall2 (fun before after =>
                id after = id before
                /\ (watched before = true -> watched after = true))
       (videos s) (videos (state_of r)).
Proof.
  cbn zeta. unfold handleVideoPlay.
  destruct (watched video); cbn [negb].
  - repeat split; [discriminate..|]. cbn.
    induction (videos s); constructor; auto.
  - split; [now destruct answer|]. split; [discriminate|].
    destruct answer as [response|e]; cbn.
    + induction (videos s) as [|v l IH]; cbn; constructor; [|exact IH].
      destruct (id v =? id video)%string; cbn; auto.
    + induction (videos s); constructor; auto.
Qed.

(** X25.  A toggle keeps the lessons in place: the list has the same ids in
    the same order, every lesson with another id is untouched, and the busy
    marker is cleared whatever the request gave. *)
Theorem toggle_keeps_other_lessons (video : Video) (answer : Outcome (Response unit))
    (s : State) :
  let s' := state_of (handleVideoToggleWatched video answer s) in
  Forall2 (fun before after =>
             id after = id before
             /\ (id before <> id video -> after = before))
    (videos s) (videos s')
  /\ completingVideoId s' = None.
Proof.
  cbn zeta. rewrite toggle_state.
  destruct answer as [response|e]; cbn; (split; [|reflexivity]).
  - induction (videos s) as [|v l IH]; cbn; constructor; [|exact IH].
    destruct (id v =? id video)%string eqn:E; cbn; [|auto].
    apply String.eqb_eq in E. split; [reflexivity|]. congruence.
  - induction (videos s); constructor; auto.
Qed.

Lemma mark_in_list_back (video : Video) (l : list Video) :
  In video l ->
  NoDup (map id l) ->
  mark_in_list (with_watched (negb (watched video)) video) (watched video)
    (mark_in_list video (negb (watched video)) l)
  = l.
Proof.
  intros Hin Hnd. unfold mark_in_list. rewrite map_map.
  rewrite <- (map_id l) at 2. apply map_ext_in. intros v Hv.
  destruct (id v =? id video)%string eqn:E; cbn; rewrite E; [|reflexivity].
  apply String.eqb_eq in E.
  assert (v = video) as ->; [|now destruct video].
  clear - Hin Hv Hnd E. induction l as [|x l IH]; [contradiction|].
  cbn in Hnd. inversion Hnd as [|? ? Hnotin Hnd']; subst.
  destruct Hin as [-> | Hin], Hv as [-> | Hv]; auto.
  - exfalso. apply Hnotin. rewrite <- E. now apply in_map.
  - exfalso. apply Hnotin. rewrite E. now apply in_map.
Qed.

(** X26.  In a list without repeated ids, toggling a lesson and then
    toggling the updated lesson, both with success, gives back the list;
    and the selection too, when it is a lesson of the list. *)
Theorem toggle_twice_restores (video : Video) (first second : Response unit)
    (s : State) :
  In video (videos s) ->
  NoDup (map id (videos s)) ->
  (forall p, selectedVideo s = Some p -> In p (videos s)) ->
  let s1 := state_of (handleVideoToggleWatched video (Resolved first) s) in
  let s2 := state_of (handleVideoToggleWatched
                        (with_watched (negb (watched video)) video) (Resolved second) s1) in
  videos s2 = videos s /\ selectedVideo s2 = selectedVideo s.
Proof.
  intros Hin Hnd Hsel. cbn zeta. rewrite !toggle_state. cbn.
  rewrite negb_involutive.
  split; [now apply mark_in_list_back|].
  destruct (selectedVideo s) as [p|] eqn:Hp; [|reflexivity].
  specialize (Hsel p eq_refl).
  unfold mark_selected.
  destruct (id p =? id video)%string eqn:E; cbn; rewrite E; [|reflexivity].
  apply String.eqb_eq in E.
  assert (p = video) as ->; [|now destruct video].
  clear - Hin Hsel Hnd E. induction (videos s) as [|x l IH]; [contradiction|].
  cbn in Hnd. inversion Hnd as [|? ? Hnotin Hnd']; subst.
  destruct Hin as [-> | Hin], Hsel as [-> | Hsel]; auto.
  - exfalso. apply Hnotin. rewrite <- E. now apply in_map.
  - exfalso. apply Hnotin. rewrite E. now apply in_map.
Qed.

(** * Handlers and the page together *)



(** * The further properties at work *)

Lemma payment_pending_sets_cells_witness :
  paymentSubmitted (state_of (fetchCourseAndStatus (Some "c1") proofUnderReview initialState))
  = true
  /\ paymentPending (state_of (fetchCourseAndStatus (Some "c1") proofUnderReview initialState))
     = true.
Proof.
  apply (payment_pending_sets_cells (Some "c1") proofUnderReview initialState
           {| resp_status := 200; resp_handled := Resolved {| psd_status := "pending" |} |}
           {| psd_status := "pending" |});
    reflexivity.
Defined.

Lemma payment_check_failure_clears_cells_witness :
  paymentSubmitted (state_of (fetchCourseAndStatus (Some "c1") proofCheckBroken proofSubmitted))
  = false
  /\ paymentPending (state_of (fetchCourseAndStatus (Some "c1") proofCheckBroken proofSubmitted))
     = false.
Proof.
  apply (payment_check_failure_clears_cells (Some "c1") proofCheckBroken proofSubmitted
           serverError).
  - reflexivity.
  - left. reflexivity.
Defined.

Lemma payment_cells_kept_witness :
  paymentSubmitted (state_of (fetchCourseAndStatus (Some "c1") proofCheck500 proofSubmitted))
  = paymentSubmitted proofSubmitted
  /\ paymentPending (state_of (fetchCourseAndStatus (Some "c1") proofCheck500 proofSubmitted))
     = paymentPending proofSubmitted.
Proof.
  apply (payment_cells_kept (Some "c1") proofCheck500 proofSubmitted).
  right. left. exists serverErrorResponse.
  split; [reflexivity|]. split; [reflexivity|]. cbn. lia.
Defined.

Lemma membership_failure_keeps_flag_witness :
  isEnrolled (state_of (fetchCourseAndStatus (Some "c1") membershipBroken initialState))
  = isEnrolled initialState
  /\ applicationStatus (state_of (fetchCourseAndStatus (Some "c1") membershipBroken initialState))
     = Some (resolvedStatus membershipBroken)
  /\ error (state_of (fetchCourseAndStatus (Some "c1") membershipBroken initialState))
     = error initialState
  /\ navigations (trace_of (fetchCourseAndStatus (Some "c1") membershipBroken initialState))
     = [].
Proof.
  apply (membership_failure_keeps_flag (Some "c1") membershipBroken initialState serverError);
    reflexivity.
Defined.

Lemma enrolled_implies_approved_witness :
  applicationStatus (state_of (fetchCourseAndStatus (Some "c1") pendingButEnrolled initialState))
  = Some APPROVED.
Proof.
  apply (enrolled_implies_approved (Some "c1") pendingButEnrolled initialState);
    reflexivity.
Defined.

Lemma error_page_is_sticky_witness :
  render (state_of (fetchCourseAndStatus (Some "c1") approvedNoProof erroredPage))
  = ErrorView "Failed to load course details. Please try again later.".
Proof.
  destruct (error_page_is_sticky (Some "c1") approvedNoProof erroredPage
              "Failed to load course details. Please try again later." eq_refl)
    as (_ & Hshown).
  exact (Hshown "c1" sampleCourse eq_refl eq_refl).
Defined.

Lemma enrolled_page_shows_videos_witness :
  filter is_status_panel
    (panels (state_of (fetchCourseAndStatus (Some "c1") pendingButEnrolled initialState)))
  = []
  /\ In (VideoSection
           (videoArea (state_of (fetchCourseAndStatus (Some "c1") pendingButEnrolled initialState))))
        (panels (state_of (fetchCourseAndStatus (Some "c1") pendingButEnrolled initialState))).
Proof.
  apply (enrolled_page_shows_videos (Some "c1") pendingButEnrolled initialState "c1"
           [enrolledC2; enrolledC1]);
    reflexivity.
Defined.

Lemma approved_page_offers_payment_witness :
  panels (state_of (fetchCourseAndStatus (Some "c1") approvedNoProof initialState))
  = [ApprovedPanel].
Proof.
  apply (approved_page_offers_payment (Some "c1") approvedNoProof initialState "c1"
           notFound []);
    reflexivity.
Defined.

Lemma submitted_panel_excludes_payment_prompts_witness :
  paymentSubmitted underReviewPage = paymentPending underReviewPage
  /\ (In PaymentSubmittedPanel (panels underReviewPage) ->
      ~ In ApprovedPanel (panels underReviewPage)
      /\ ~ In PaymentFormPanel (panels underReviewPage)).
Proof.
  apply (submitted_panel_excludes_payment_prompts underReviewPage).
  apply reachable_step; [apply reachable_initial|exact I].
Defined.

Lemma application_submit_success_witness :
  requests (trace_of (handleFormSubmit (Some "c1") completeForm (ok_response tt) initialState))
  = [Apply "c1" completeForm certificate]
  /\ state_of (handleFormSubmit (Some "c1") completeForm (ok_response tt) initialState)
     = upd_isSubmitting false
         (upd_showEnrollmentForm false (upd_applicationStatus (Some PENDING) initialState))
  /\ toasts (trace_of (handleFormSubmit (Some "c1") completeForm (ok_response tt) initialState))
     = [(ToastSuccess, "Enrollment application submitted successfully!")].
Proof.
  apply (application_submit_success (Some "c1") "c1" completeForm certificate
           (ok_response tt) tt initialState);
    reflexivity.
Defined.

Lemma application_submit_failure_witness :
  result_of (handleFormSubmit (Some "c1") completeForm (Rejected serverError) initialState)
  = Resolved tt
  /\ requests (trace_of (handleFormSubmit (Some "c1") completeForm (Rejected serverError)
                           initialState))
     = [Apply "c1" completeForm certificate]
  /\ state_of (handleFormSubmit (Some "c1") completeForm (Rejected serverError) initialState)
     = upd_isSubmitting false initialState
  /\ toasts (trace_of (handleFormSubmit (Some "c1") completeForm (Rejected serverError)
                         initialState))
     = [(ToastError, application_failure_text serverError)].
Proof.
  apply (application_submit_failure (Some "c1") "c1" completeForm certificate
           (Rejected serverError) serverError initialState);
    reflexivity.
Defined.

Lemma payment_submit_failure_witness :
  result_of (handlePaymentProofSubmit (Some "c1") (Some receipt) (Rejected serverError)
               paymentStaged)
  = Resolved tt
  /\ requests (trace_of (handlePaymentProofSubmit (Some "c1") (Some receipt)
                           (Rejected serverError) paymentStaged))
     = [PaymentProof "c1" receipt]
  /\ state_of (handlePaymentProofSubmit (Some "c1") (Some receipt) (Rejected serverError)
                 paymentStaged)
     = upd_isSubmittingPayment false paymentStaged
  /\ toasts (trace_of (handlePaymentProofSubmit (Some "c1") (Some receipt)
                         (Rejected serverError) paymentStaged))
     = [(ToastError, "Failed to submit payment proof.")].
Proof.
  apply (payment_submit_failure (Some "c1") "c1" receipt (Rejected serverError)
           serverError paymentStaged);
    reflexivity.
Defined.

Lemma filled_form_is_sent_witness :
  requests
    (trace_of
       (handleFormSubmit (Some "c1")
          (enrollmentForm (typed (fill completeForm) (Some [certificate]) initialState))
          (ok_response tt)
          (typed (fill completeForm) (Some [certificate]) initialState)))
  = [Apply "c1" (with_field (CertificateChange (Some certificate)) completeForm) certificate].
Proof.
  apply (filled_form_is_sent "c1" completeForm certificate [] (ok_response tt) initialState).
  - discriminate.
  - reflexivity.
Defined.

Lemma certificate_stays_attached_witness :
  (exists f',
      qualification_certificate
        (enrollmentForm
           (chosen [None; Some []] (upd_enrollmentForm completeForm initialState)))
      = Some f')
  /\ (forall k,
        text_of k (enrollmentForm
                     (chosen [None; Some []] (upd_enrollmentForm completeForm initialState)))
        = text_of k (enrollmentForm (upd_enrollmentForm completeForm initialState))).
Proof.
  apply (certificate_stays_attached [None; Some []]
           (upd_enrollmentForm completeForm initialState) certificate).
  reflexivity.
Defined.

Lemma fetch_videos_needs_enrollment_witness :
  fetchVideos (Some "c1") false lessonsAnswer initialState = (Resolved tt, initialState, []).
Proof.
  apply (fetch_videos_needs_enrollment (Some "c1") false lessonsAnswer initialState).
  right. reflexivity.
Defined.

Lemma fetch_videos_success_witness :
  requests (trace_of (fetchVideos (Some "c1") true lessonsAnswer initialState))
  = [VideosWithCheckpoint "c1"]
  /\ videos (state_of (fetchVideos (Some "c1") true lessonsAnswer initialState))
     = [lesson1; lesson2]
  /\ selectedVideo (state_of (fetchVideos (Some "c1") true lessonsAnswer initialState))
     = Some lesson1
  /\ isLoadingVideos (state_of (fetchVideos (Some "c1") true lessonsAnswer initialState))
     = false
  /\ toasts (trace_of (fetchVideos (Some "c1") true lessonsAnswer initialState)) = [].
Proof.
  apply (fetch_videos_success (Some "c1") "c1" lessonsAnswer [lesson1; lesson2] initialState);
    reflexivity.
Defined.

Lemma fetch_videos_failure_witness :
  result_of (fetchVideos (Some "c1") true (Rejected serverError) watching) = Resolved tt
  /\ state_of (fetchVideos (Some "c1") true (Rejected serverError) watching)
     = upd_isLoadingVideos false watching
  /\ toasts (trace_of (fetchVideos (Some "c1") true (Rejected serverError) watching))
     = [(ToastError, "Failed to load course videos.")].
Proof.
  apply (fetch_videos_failure (Some "c1") "c1" (Rejected serverError) serverError watching);
    reflexivity.
Defined.

Lemma selected_video_is_listed_witness : selection_listed enrolledPage.
Proof.
  apply (selected_video_is_listed enrolledPage).
  apply reachable_step; [|exact I].
  apply reachable_step; [apply reachable_initial|exact I].
Defined.

Lemma toggle_twice_restores_witness :
  videos
    (state_of
       (handleVideoToggleWatched (with_watched (negb (watched lesson1)) lesson1)
          (Resolved {| resp_status := 200; resp_handled := Resolved tt |})
          (state_of
             (handleVideoToggleWatched lesson1
                (Resolved {| resp_status := 200; resp_handled := Resolved tt |}) watching))))
  = videos watching
  /\ selectedVideo
       (state_of
          (handleVideoToggleWatched (with_watched (negb (watched lesson1)) lesson1)
             (Resolved {| resp_status := 200; resp_handled := Resolved tt |})
             (state_of
                (handleVideoToggleWatched lesson1
                   (Resolved {| resp_status := 200; resp_handled := Resolved tt |}) watching))))
     = selectedVideo watching.
Proof.
  apply (toggle_twice_restores lesson1
           {| resp_status := 200; resp_handled := Resolved tt |}
           {| resp_status := 200; resp_handled := Resolved tt |} watching).
  - left. reflexivity.
  - cbn. repeat constructor; cbn; intuition discriminate.
  - intros p [= <-]. left. reflexivity.
Defined.


